(** * Rank computation and MRR evaluation of [tasks/codesearch.py]

    A shallow embedding of [compute_ranks] and of the evaluation driver
    [test], with the numpy / scipy operations they call modelled on
    binary64 floats (Rocq's primitive floats), and the properties of the
    rank computation proved over it. *)

From Stdlib Require Import String.
From Stdlib Require Import List ZArith Lia Bool Floats Permutation.
Import ListNotations.

Set Implicit Arguments.

(** ** Python exceptions and results *)

Inductive exn : Type :=
| ValueError (msg : string)
| AssertionError
| ZeroDivisionError (msg : string).

Inductive result (A : Type) : Type :=
| Ok (a : A)
| Raise (e : exn).

Arguments Ok {A} a.
Arguments Raise {A} e.

Definition bind {A B : Type} (r : result A) (k : A -> result B) : result B :=
  match r with
  | Ok a => k a
  | Raise e => Raise e
  end.

Notation "x <- c1 ;; c2" := (bind c1 (fun x => c2))
  (at level 61, c1 at next level, right associativity).
Notation "' pat <- c1 ;; c2" := (bind c1 (fun x => match x with pat => c2 end))
  (at level 61, pat pattern, c1 at next level, right associativity).

Definition raises {A : Type} (r : result A) : Prop := exists e, r = Raise e.

(** ** numpy: two-dimensional arrays *)

Module Np.

(** A 2-D [ndarray]: its rows, and the column count (which numpy keeps
    even when there is no row). *)
Record ndarray (A : Type) : Type := mk_ndarray {
  ncols : nat;
  rows : list (list A)
}.

Definition nrows {A} (a : ndarray A) : nat := length (rows a).

(** [a] is a rectangular array of shape [(m, d)]. *)
Definition has_shape {A} (a : ndarray A) (m d : nat) : Prop :=
  nrows a = m /\ ncols a = d /\ Forall (fun r => length r = d) (rows a).

(** [a[i][j]]. *)
Definition item {A} (a : ndarray A) (i j : nat) : option A :=
  match nth_error (rows a) i with
  | Some r => nth_error r j
  | None => None
  end.

(** [np.diag(a)] on a 2-D array: the entries [a[k][k]], as long as both
    indices are in range. *)
Fixpoint diag_from {A} (k : nat) (rs : list (list A)) : list A :=
  match rs with
  | [] => []
  | r :: rs' =>
      match nth_error r k with
      | Some x => x :: diag_from (S k) rs'
      | None => []
      end
  end.

Definition diag {A} (a : ndarray A) : list A := diag_from 0 (rows a).

(** [np.expand_dims(v, axis=-1)]: a vector of length [k] becomes a
    [(k, 1)] array. *)
Definition expand_dims {A} (v : list A) : ndarray A :=
  {| ncols := 1; rows := map (fun x => [x]) v |}.

(** Broadcasting of one dimension: equal sizes, or one of them is 1. *)
Definition broadcast_dim (m k : nat) : result nat :=
  if m =? k then Ok m
  else if m =? 1 then Ok k
  else if k =? 1 then Ok m
  else Raise (ValueError "operands could not be broadcast together").

(** A dimension of size 1 is repeated to the size [n]; any other is kept. *)
Definition stretch {A} (n : nat) (l : list A) : list A :=
  match l with
  | [x] => repeat x n
  | _ => l
  end.

Definition broadcast_to {A} (r c : nat) (a : ndarray A) : list (list A) :=
  stretch r (map (stretch c) (rows a)).

Definition map2 {A B C} (f : A -> B -> C) (l1 : list A) (l2 : list B) : list C :=
  map (fun p => f (fst p) (snd p)) (combine l1 l2).

(** [a <= b] on float arrays, elementwise after broadcasting. The
    comparison is IEEE 754's: it is false when an operand is NaN. *)
Definition less_equal (a b : ndarray float) : result (ndarray bool) :=
  r <- broadcast_dim (nrows a) (nrows b) ;;
  c <- broadcast_dim (ncols a) (ncols b) ;;
  Ok {| ncols := c;
        rows := map2 (map2 PrimFloat.leb) (broadcast_to r c a) (broadcast_to r c b) |}.

Definition count_true (l : list bool) : nat := length (filter (fun b => b) l).

(** [np.sum(a, axis=-1)] on a boolean array: the count of [True] per row. *)
Definition sum_last (a : ndarray bool) : list Z :=
  map (fun r => Z.of_nat (count_true r)) (rows a).

(** [np.concatenate(arrays, axis=0)]. *)
Fixpoint concatenate_rows {A} (d : nat) (l : list (ndarray A)) : result (list (list A)) :=
  match l with
  | [] => Ok []
  | a :: l' =>
      if ncols a =? d then
        rs <- concatenate_rows d l' ;; Ok (rows a ++ rs)
      else
        Raise (ValueError "all the input array dimensions except for the concatenation axis must match exactly")
  end.

Definition concatenate {A} (l : list (ndarray A)) : result (ndarray A) :=
  match l with
  | [] => Raise (ValueError "need at least one array to concatenate")
  | a :: _ =>
      rs <- concatenate_rows (ncols a) l ;;
      Ok {| ncols := ncols a; rows := rs |}
  end.

End Np.

Import Np.

(** ** scipy.spatial.distance *)

Module Scipy.

Abbreviation vector := (list float).

(** A distance metric on rows, as [cdist] applies it to a pair of rows. *)
Definition metric : Type := vector -> vector -> float.

Definition dot (u v : vector) : float :=
  fold_left (fun s p => (s + fst p * snd p)%float) (combine u v) 0%float.

Definition norm (u : vector) : float := PrimFloat.sqrt (dot u u).

(** The similarity is clipped to [-1, 1] against rounding errors; a NaN
    passes the test unchanged. *)
Definition clip_unit (c : float) : float :=
  if (1 <? PrimFloat.abs c)%float
  then (if (c <? 0)%float then (-1)%float else 1%float)
  else c.

Definition similarity (u v : vector) : float :=
  (dot u v / (norm u * norm v))%float.

(** The metric ['cosine'] of [cdist]: one minus the cosine of the angle. *)
Definition cosine : metric :=
  fun u v => (1 - clip_unit (similarity u v))%float.

(** [cdist(XA, XB, metric)]: the two arrays must have the same number of
    columns; entry [(i, j)] of the result is the distance of row [i] of
    [XA] to row [j] of [XB]. *)
Definition cdist (XA XB : ndarray float) (m : metric) : result (ndarray float) :=
  if ncols XA =? ncols XB then
    Ok {| ncols := nrows XB;
          rows := map (fun u => map (m u) (rows XB)) (rows XA) |}
  else
    Raise (ValueError "XA and XB must have the same number of columns").

End Scipy.

Import Scipy.

(** ** [compute_ranks] *)

Definition compute_ranks (src_representations tgt_representations : ndarray float)
    (distance_metric : metric) : result (list Z * ndarray float) :=
  distances <- cdist src_representations tgt_representations distance_metric ;;
  (* By construction the diagonal contains the correct elements *)
  let correct_elements := expand_dims (diag distances) in
  cmp <- less_equal distances correct_elements ;;
  Ok (sum_last cmp, distances).

(** ** The evaluation driver [test] *)

(** [more_itertools.chunked(iterable, n)]: consecutive lists of [n] items,
    the last one shorter when the length is not a multiple of [n]. *)
Fixpoint chunked_fuel {A} (fuel n : nat) (l : list A) : list (list A) :=
  match fuel with
  | 0 => []
  | S fuel' =>
      match l with
      | [] => []
      | _ :: _ => firstn n l :: chunked_fuel fuel' n (skipn n l)
      end
  end.

Definition chunked {A} (l : list A) (n : nat) : list (list A) :=
  match n with
  | 0 => []
  | S _ => chunked_fuel (length l) n l
  end.

(** A token-id sequence, and a test item: the tokenized code and the
    tokenized query of one example. *)
Definition tokens : Type := list Z.
Definition example : Type := (tokens * tokens)%type.

(** The options of [cfg.run] that the evaluation loop reads. *)
Record run_config : Type := {
  test_batch_size : Z;
  train_batch_size : Z
}.

(** [DataLoader(dataset, batch_size=b)]: the items in order, in
    mini-batches of [b], the last one possibly smaller. *)
Definition DataLoader {A} (dataset : list A) (batch_size : Z) : result (list (list A)) :=
  if (batch_size <=? 0)%Z
  then Raise (ValueError "batch_size should be a positive integer value")
  else Ok (chunked dataset (Z.to_nat batch_size)).

Definition py_assert (b : bool) : result unit :=
  if b then Ok tt else Raise AssertionError.

Definition float_of_Z (z : Z) : float := PrimFloat.of_uint63 (Uint63.of_Z z).
Definition float_of_nat (n : nat) : float := float_of_Z (Z.of_nat n).

(** [1.0 / ranks] *)
Definition reciprocals (ranks : list Z) : list float :=
  map (fun r => (1 / float_of_Z r)%float) ranks.

Inductive log_record : Type :=
| Info (msg : string)
| TestMRR (value : float).

Section Driver.

(** The encoder: [model(inputs)[1]], one embedding row per input row when
    it behaves. *)
Variable model : list tokens -> ndarray float.
(** [np.mean] of a float vector, and Python's [round(x, ndigits)]. *)
Variable np_mean : list float -> float.
Variable py_round : float -> Z -> float.

Variable cfg : run_config.

(** Lines 75-92: the embeddings of one batch, computed mini-batch by
    mini-batch and concatenated. *)
Definition batch_representations (batch_data : list example)
    : result (ndarray float * ndarray float) :=
  let code_query_dataset := combine (map fst batch_data) (map snd batch_data) in
  minibatch_loader <- DataLoader code_query_dataset (train_batch_size cfg) ;;
  let code_representations :=
    map (fun mini_batch => model (map fst mini_batch)) minibatch_loader in
  let query_representations :=
    map (fun mini_batch => model (map snd mini_batch)) minibatch_loader in
  code_representations <- concatenate code_representations ;;
  query_representations <- concatenate query_representations ;;
  Ok (code_representations, query_representations).

(** Lines 93-96: the assertion, the ranks and the batch's mean reciprocal
    rank. *)
Definition batch_score (reps : ndarray float * ndarray float) : result float :=
  let (code_representations, query_representations) := reps in
  _ <- py_assert ((nrows code_representations =? nrows query_representations)
                  && (Z.of_nat (nrows query_representations) =? test_batch_size cfg)%Z) ;;
  '(ranks, _) <- compute_ranks code_representations query_representations cosine ;;
  Ok (np_mean (reciprocals ranks)).

Definition batch_mrr (batch_data : list example) : result float :=
  reps <- batch_representations batch_data ;;
  batch_score reps.

(** The loop of lines 70-96 over the chunks, with its two accumulators. *)
Fixpoint batch_loop (batched_data : list (list example)) (sum_mrr : float)
    (num_batches : nat) : result (float * nat) :=
  match batched_data with
  | [] => Ok (sum_mrr, num_batches)
  | batch_data :: rest =>
      if (Z.of_nat (length batch_data) <? test_batch_size cfg)%Z
      then Ok (sum_mrr, num_batches)  (* the last batch is smaller than the others, exclude. *)
      else
        r <- batch_mrr batch_data ;;
        batch_loop rest (sum_mrr + r)%float (S num_batches)
  end.

(** [test], from line 67 on, on the tokenized and shuffled items [data]. *)
Definition test (data : list example) : result (list log_record) :=
  let n := test_batch_size cfg in
  _ <- (if (n =? 0)%Z
        then Raise (ZeroDivisionError "integer division or modulo by zero")
        else Ok tt) ;;
  _ <- (if (n <? 0)%Z
        then Raise (ValueError "Stop argument for islice() must be None or an integer")
        else Ok tt) ;;
  '(sum_mrr, num_batches) <- batch_loop (chunked data (Z.to_nat n)) 0%float 0 ;;
  mrr <- (if num_batches =? 0
          then Raise (ZeroDivisionError "float division by zero")
          else Ok (sum_mrr / float_of_nat num_batches)%float) ;;
  Ok [Info "Tokenizing codes and queries."; TestMRR (py_round mrr 4%Z)].

(** The batch [b] has the mean reciprocal rank [s]: [s] is [np.mean] of
    [1 / ranks] for the ranks of the batch's code embeddings against its
    query embeddings. *)
Definition batch_scored (b : list example) (s : float) : Prop :=
  exists c q ranks d,
    batch_representations b = Ok (c, q)
    /\ compute_ranks c q cosine = Ok (ranks, d)
    /\ s = np_mean (reciprocals ranks).

End Driver.

Unset Implicit Arguments.

(** ** Reading the results *)

(** The count of the indices [j] in [[0, n)] with
    [d[i][j] <= d[i][i]], when [d[i][i]] exists. *)
Definition rank_at (d : ndarray float) (i n : nat) : option Z :=
  match item d i i with
  | Some c =>
      Some (Z.of_nat (length (filter
        (fun j => match item d i j with
                  | Some x => (x <=? c)%float
                  | None => false
                  end) (seq 0 n))))
  | None => None
  end.

(** The number of the rows [t] of [T] that are at most as far from [u] as
    [v] is. *)
Definition closer_count (m : metric) (T : list vector) (u v : vector) : Z :=
  Z.of_nat (length (filter (fun t => (m u t <=? m u v)%float) T)).

(** Every row's diagonal entry is strictly below the other entries of
    the row. *)
Definition diagonal_strictly_minimal (d : ndarray float) (n : nat) : Prop :=
  forall i j c x, i < n -> j < n -> j <> i ->
    item d i i = Some c -> item d i j = Some x -> (c <? x)%float = true.

(** No diagonal entry is NaN. *)
Definition diagonal_not_nan (d : ndarray float) (n : nat) : Prop :=
  forall i c, i < n -> item d i i = Some c -> PrimFloat.is_nan c = false.

(** All the entries are equal: any two of them are the same value, or
    compare equal as floats (as [0] and [-0] do). A matrix of NaN only has
    all its entries equal in this sense. *)
Definition all_entries_equal (d : ndarray float) (n : nat) : Prop :=
  forall i j k l x y, i < n -> j < n -> k < n -> l < n ->
    item d i j = Some x -> item d k l = Some y ->
    x = y \/ (x =? y)%float = true.

(** The [k]-th unit vector of dimension [d]. *)
Definition one_hot (d k : nat) : vector :=
  repeat 0%float k ++ 1%float :: repeat 0%float (d - S k).

Definition arr (d : nat) (rs : list (list float)) : ndarray float :=
  {| ncols := d; rows := rs |}.

(** The rows of the distance matrix of the rows [S] against the rows [T]. *)
Definition distance_rows (m : metric) (S T : list vector) : list (list float) :=
  map (fun u => map (m u) T) S.

(** The error is a [ValueError]. *)
Definition is_ValueError (e : exn) : Prop :=
  match e with
  | ValueError _ => True
  | _ => False
  end.

(** The three rows [[1,0]], [[0,1]], [[1,1]]. *)
Definition three_rows : ndarray float := arr 2 [[1; 0]; [0; 1]; [1; 1]]%float.

(** One row, and the two rows of the identity. *)
Definition one_row : ndarray float := arr 2 [[1; 0]]%float.
Definition two_rows : ndarray float := arr 2 [[1; 0]; [0; 1]]%float.

(** A single zero vector. *)
Definition zero_row : ndarray float := arr 2 [[0; 0]]%float.

(** Twice the zero vector. *)
Definition zero_rows : ndarray float := arr 2 [[0; 0]; [0; 0]]%float.

(** Twice the same row. *)
Definition same_rows : ndarray float := arr 2 [[1; 0]; [1; 0]]%float.

(** An encoder of width 2, a mean by summation from the left, and no
    rounding, to run the driver on. *)
Definition toy_model (xs : list tokens) : ndarray float :=
  {| ncols := 2; rows := map (fun t => [float_of_Z (hd 0%Z t); 1%float]) xs |}.

Definition naive_mean (l : list float) : float :=
  (fold_left PrimFloat.add l 0 / float_of_nat (length l))%float.

Definition no_round (x : float) (ndigits : Z) : float := x.

Definition toy_cfg : run_config :=
  {| test_batch_size := 2; train_batch_size := 1 |}.

Definition toy_batch : list example := [([1%Z], [1%Z]); ([2%Z], [3%Z])].
Definition toy_rest : list example := [([5%Z], [5%Z])].

(** The encoder works row by row: its width is fixed and the embeddings
    of a sequence of inputs are those of its parts, in order. *)
Definition row_wise (model : list tokens -> ndarray float) (hidden : nat) : Prop :=
  (forall xs, ncols (model xs) = hidden)
  /\ (forall xs ys, rows (model (xs ++ ys)) = rows (model xs) ++ rows (model ys)).

(** A configuration whose mini-batch size is refused by [DataLoader]. *)
Definition bad_cfg : run_config :=
  {| test_batch_size := 2; train_batch_size := 0 |}.

(** The small configuration with whole batches as mini-batches. *)
Definition toy_cfg_whole : run_config :=
  {| test_batch_size := 2; train_batch_size := 2 |}.

(** ** Lists *)

Section ListFacts.

Context {A : Type}.

Lemma stretch_id (n : nat) (l : list A) : length l = n -> stretch n l = l.
Proof.
  destruct l as [|x [|y l]]; simpl; intros H; try reflexivity.
  subst n. reflexivity.
Qed.

Lemma stretch_rows_id (n : nat) (rs : list (list A)) :
  Forall (fun r => length r = n) rs -> map (stretch n) rs = rs.
Proof.
  induction 1 as [|r rs Hr _ IH]; simpl; [reflexivity|].
  now rewrite (stretch_id _ _ Hr), IH.
Qed.

Lemma skipn_nth_error_cons (l : list A) (k : nat) (x : A) :
  nth_error l k = Some x -> skipn k l = x :: skipn (S k) l.
Proof.
  revert k; induction l as [|a l IH]; intros [|k]; simpl; try discriminate.
  - now intros [= ->].
  - intros H. now rewrite (IH _ H).
Qed.

Lemma skipn_nth_error_nil (l : list A) (k : nat) :
  nth_error l k = None -> skipn k l = [].
Proof.
  intros H. apply skipn_all2. now apply nth_error_None.
Qed.

Lemma length_filter_map {X Y} (f : Y -> bool) (g : X -> Y) (l : list X) :
  length (filter f (map g l)) = length (filter (fun x => f (g x)) l).
Proof.
  induction l as [|a l IH]; simpl; [reflexivity|].
  destruct (f (g a)); simpl; now rewrite IH.
Qed.

(** Counting over a list is counting over its indices. *)
Lemma length_filter_index (P : A -> bool) (l : list A) :
  length (filter P l)
  = length (filter (fun j => match nth_error l j with
                             | Some a => P a
                             | None => false
                             end) (seq 0 (length l))).
Proof.
  induction l as [|a l IH]; simpl; [reflexivity|].
  rewrite <- seq_shift.
  destruct (P a); simpl; now rewrite length_filter_map, IH.
Qed.

Lemma length_filter_le (P : A -> bool) (l : list A) :
  length (filter P l) <= length l.
Proof.
  induction l as [|a l IH]; simpl; [lia|].
  destruct (P a); simpl; lia.
Qed.

Lemma length_filter_all (P : A -> bool) (l : list A) :
  (forall a, In a l -> P a = true) -> length (filter P l) = length l.
Proof.
  induction l as [|a l IH]; simpl; intros H; [reflexivity|].
  rewrite (H a (or_introl eq_refl)). simpl. now rewrite IH by auto.
Qed.

End ListFacts.

(** ** The distance matrix and its diagonal *)

Section Distances.

Variable m : metric.

Lemma diag_from_distance_rows (S T : list vector) (k : nat) :
  diag_from k (distance_rows m S T) = map2 m S (skipn k T).
Proof.
  revert k; induction S as [|u S IH]; intros k; simpl; [reflexivity|].
  rewrite nth_error_map.
  destruct (nth_error T k) as [t|] eqn:E; simpl.
  - rewrite IH, (skipn_nth_error_cons _ _ _ E). reflexivity.
  - rewrite (skipn_nth_error_nil _ _ E). reflexivity.
Qed.

Lemma item_distance_rows (S T : list vector) (n i j : nat) :
  item {| ncols := n; rows := distance_rows m S T |} i j
  = match nth_error S i, nth_error T j with
    | Some u, Some v => Some (m u v)
    | _, _ => None
    end.
Proof.
  unfold item, distance_rows; simpl. rewrite nth_error_map.
  destruct (nth_error S i) as [u|]; simpl; [|reflexivity].
  rewrite nth_error_map. now destruct (nth_error T j).
Qed.

(** One row of the comparison: the row of [u] against its own reference
    distance [c], repeated over the columns. *)
Lemma compare_row (T : list vector) (u : vector) (c : float) :
  map2 PrimFloat.leb (map (m u) T) (repeat c (length T))
  = map (fun t => (m u t <=? c)%float) T.
Proof.
  unfold map2. induction T as [|t T IH]; simpl; [reflexivity|].
  now rewrite IH.
Qed.

Lemma count_true_map {X} (P : X -> bool) (l : list X) :
  count_true (map P l) = length (filter P l).
Proof.
  unfold count_true. now rewrite length_filter_map.
Qed.

Lemma compare_rows (S T T' : list vector) :
  map (fun r => Z.of_nat (count_true r))
      (map2 (map2 PrimFloat.leb) (distance_rows m S T)
            (map (fun x => repeat x (length T)) (map2 m S T')))
  = map (fun p => closer_count m T (fst p) (snd p)) (combine S T').
Proof.
  unfold map2 at 1 3. revert T'; induction S as [|u S IH]; intros [|v T']; simpl;
    try reflexivity.
  rewrite compare_row, count_true_map. unfold closer_count at 1. f_equal. apply IH.
Qed.

End Distances.


(** ** [compute_ranks] when there are at most as many source rows as
       target rows *)

Lemma broadcast_dim_same (n : nat) : broadcast_dim n n = Ok n.
Proof. unfold broadcast_dim. now rewrite Nat.eqb_refl. Qed.

Lemma broadcast_dim_one (n : nat) : broadcast_dim n 1 = Ok n.
Proof.
  unfold broadcast_dim. destruct (n =? 1) eqn:E; [reflexivity|].
  now rewrite Nat.eqb_refl.
Qed.

Lemma length_map2 {X Y Z'} (f : X -> Y -> Z') (l1 : list X) (l2 : list Y) :
  length (map2 f l1 l2) = Nat.min (length l1) (length l2).
Proof. unfold map2. now rewrite length_map, length_combine. Qed.

Lemma length_distance_rows (m : metric) (S T : list vector) :
  length (distance_rows m S T) = length S.
Proof. apply length_map. Qed.

Lemma Forall_length_distance_rows (m : metric) (S T : list vector) :
  Forall (fun r => length r = length T) (distance_rows m S T).
Proof.
  unfold distance_rows. apply Forall_forall. intros r Hr.
  apply in_map_iff in Hr as [u [<- _]]. apply length_map.
Qed.

Lemma compute_ranks_rows_le (m : metric) (src tgt : ndarray float) :
  ncols src = ncols tgt ->
  nrows src <= nrows tgt ->
  compute_ranks src tgt m
  = Ok (map (fun p => closer_count m (rows tgt) (fst p) (snd p))
            (combine (rows src) (rows tgt)),
        {| ncols := nrows tgt; rows := distance_rows m (rows src) (rows tgt) |}).
Proof.
  intros Hc Hr. unfold compute_ranks, cdist.
  rewrite Hc, Nat.eqb_refl. cbn [bind].
  fold (distance_rows m (rows src) (rows tgt)).
  unfold diag; cbn [rows]. rewrite diag_from_distance_rows. cbn [skipn].
  unfold less_equal, expand_dims, nrows; cbn [rows ncols].
  rewrite length_distance_rows, length_map, length_map2.
  unfold nrows in Hr. rewrite (Nat.min_l _ _ Hr).
  rewrite broadcast_dim_same, broadcast_dim_one. cbn [bind].
  unfold sum_last, broadcast_to; cbn [rows].
  rewrite (stretch_rows_id _ _ (Forall_length_distance_rows m _ _)).
  rewrite (stretch_id _ _ (length_distance_rows m _ _)).
  rewrite map_map. cbn [stretch].
  rewrite stretch_id by (rewrite length_map, length_map2; lia).
  rewrite compare_rows. reflexivity.
Qed.

Lemma nth_error_combine_some {X Y} (l1 : list X) (l2 : list Y) (i : nat) (x : X) (y : Y) :
  nth_error l1 i = Some x -> nth_error l2 i = Some y ->
  nth_error (combine l1 l2) i = Some (x, y).
Proof.
  revert l2 i; induction l1 as [|a l1 IH]; intros [|b l2] [|i]; simpl;
    try discriminate.
  - now intros [= ->] [= ->].
  - apply IH.
Qed.

Lemma nth_error_in_range {X} (l : list X) (i : nat) :
  i < length l -> exists x, nth_error l i = Some x.
Proof.
  intros H. destruct (nth_error l i) as [x|] eqn:E; [now exists x|].
  apply nth_error_None in E. lia.
Qed.

(** Row [i] of the distance matrix, read by indices, counts what
    [closer_count] counts. *)
Lemma rank_at_distance_rows (m : metric) (S T : list vector) (n i : nat) (u v : vector) :
  nth_error S i = Some u -> nth_error T i = Some v ->
  rank_at {| ncols := n; rows := distance_rows m S T |} i (length T)
  = Some (closer_count m T u v).
Proof.
  intros Hu Hv. unfold rank_at. rewrite item_distance_rows, Hu, Hv.
  unfold closer_count. do 2 f_equal.
  rewrite (length_filter_index (fun t => (m u t <=? m u v)%float) T).
  f_equal. apply filter_ext. intros j.
  rewrite item_distance_rows, Hu. now destruct (nth_error T j).
Qed.

(** The result of [compute_ranks], entry by entry, when the column counts
    agree and there are at most as many source rows as target rows. *)
Lemma compute_ranks_indexed (m : metric) (src tgt : ndarray float) :
  ncols src = ncols tgt ->
  nrows src <= nrows tgt ->
  exists ranks distances,
    compute_ranks src tgt m = Ok (ranks, distances)
    /\ has_shape distances (nrows src) (nrows tgt)
    /\ length ranks = nrows src
    /\ (forall i j u v,
          nth_error (rows src) i = Some u -> nth_error (rows tgt) j = Some v ->
          item distances i j = Some (m u v))
    /\ (forall i u v,
          nth_error (rows src) i = Some u -> nth_error (rows tgt) i = Some v ->
          nth_error ranks i = Some (closer_count m (rows tgt) u v)
          /\ rank_at distances i (nrows tgt) = Some (closer_count m (rows tgt) u v)).
Proof.
  intros Hc Hr. eexists _, _. split; [apply compute_ranks_rows_le; assumption|].
  repeat split.
  - apply length_distance_rows.
  - apply Forall_length_distance_rows.
  - rewrite length_map, length_combine. unfold nrows in *. lia.
  - intros i j u v Hu Hv. now rewrite item_distance_rows, Hu, Hv.
  - rewrite nth_error_map, (nth_error_combine_some _ _ _ _ _ H H0). reflexivity.
  - now apply rank_at_distance_rows.
Qed.

(** ** IEEE 754 comparisons *)

Module Ieee.

Lemma SFcompare_antisym (x y : spec_float) :
  SFcompare y x = option_map CompOpp (SFcompare x y).
Proof.
  destruct x as [sx|sx| |sx mx ex], y as [sy|sy| |sy my ey]; simpl;
    try reflexivity; try (destruct sx; reflexivity); try (destruct sy; reflexivity);
    try (destruct sx, sy; reflexivity).
  destruct sx, sy; simpl; try reflexivity.
  - rewrite (Z.compare_antisym ey ex).
    destruct (ey ?= ex)%Z; simpl; try reflexivity.
    rewrite (Pos.compare_cont_antisym my mx Eq). simpl.
    now rewrite CompOpp_involutive.
  - rewrite (Z.compare_antisym ey ex).
    destruct (ey ?= ex)%Z; simpl; try reflexivity.
    rewrite (Pos.compare_cont_antisym mx my Eq). simpl. reflexivity.
Qed.

Lemma SFcompare_self (x : spec_float) :
  x <> S754_nan -> SFcompare x x = Some Eq.
Proof.
  destruct x as [sx|sx| |sx mx ex]; simpl; intros H.
  - reflexivity.
  - now destruct sx.
  - congruence.
  - rewrite Z.compare_refl, Pos.compare_cont_refl. now destruct sx.
Qed.

Lemma SFcompare_nan_r (x : spec_float) : SFcompare x S754_nan = None.
Proof. now destruct x. Qed.

(** [x < y] excludes [y <= x]. *)
Lemma ltb_leb_false (x y : float) :
  (x <? y)%float = true -> (y <=? x)%float = false.
Proof.
  rewrite FloatAxioms.ltb_spec, FloatAxioms.leb_spec. unfold SFltb, SFleb.
  rewrite (SFcompare_antisym (Prim2SF x)).
  now destruct (SFcompare (Prim2SF x) (Prim2SF y)) as [[]|].
Qed.

(** [x == y] gives [x <= y]. *)
Lemma eqb_leb (x y : float) :
  (x =? y)%float = true -> (x <=? y)%float = true.
Proof.
  rewrite FloatAxioms.eqb_spec, FloatAxioms.leb_spec. unfold SFeqb, SFleb.
  now destruct (SFcompare (Prim2SF x) (Prim2SF y)) as [[]|].
Qed.

(** A number that is not NaN is at most itself. *)
Lemma leb_refl (x : float) :
  PrimFloat.is_nan x = false -> (x <=? x)%float = true.
Proof.
  unfold PrimFloat.is_nan. intros H. apply eqb_leb.
  now destruct (x =? x)%float.
Qed.

(** Nothing is at most NaN. *)
Lemma leb_nan_r (x c : float) :
  PrimFloat.is_nan c = true -> (x <=? c)%float = false.
Proof.
  unfold PrimFloat.is_nan. rewrite FloatAxioms.eqb_spec, FloatAxioms.leb_spec.
  unfold SFeqb, SFleb. intros H.
  assert (E : Prim2SF c = S754_nan).
  { destruct (Prim2SF c) as [s|s| |s mc ec] eqn:Ec; try reflexivity; exfalso.
    - discriminate H.
    - destruct s; discriminate H.
    - rewrite SFcompare_self in H by discriminate. discriminate H. }
  now rewrite E, SFcompare_nan_r.
Qed.

End Ieee.

(** ** Ranks read off the returned distance matrix *)

Lemma has_shape_ncols {X} (a b : ndarray X) (n n' d : nat) :
  has_shape a n d -> has_shape b n' d -> ncols a = ncols b.
Proof. intros (_ & Ha & _) (_ & Hb & _). congruence. Qed.

Lemma cdist_ok (m : metric) (src tgt : ndarray float) :
  ncols src = ncols tgt ->
  cdist src tgt m
  = Ok {| ncols := nrows tgt; rows := distance_rows m (rows src) (rows tgt) |}.
Proof. intros H. unfold cdist. now rewrite H, Nat.eqb_refl. Qed.

Lemma list_eq_repeat {X} (l : list X) (c : X) (n : nat) :
  length l = n -> (forall i, i < n -> nth_error l i = Some c) -> l = repeat c n.
Proof.
  revert n; induction l as [|x l IH]; intros [|n]; simpl; try discriminate;
    intros Hl H; [reflexivity|].
  f_equal.
  - specialize (H 0 (Nat.lt_0_succ n)). now injection H.
  - apply IH; [lia|]. intros i Hi. apply (H (S i)). lia.
Qed.

Lemma filter_none {X} (f : X -> bool) (l : list X) :
  (forall x, In x l -> f x = false) -> filter f l = [].
Proof.
  induction l as [|x l IH]; simpl; intros H; [reflexivity|].
  rewrite (H x (or_introl eq_refl)). apply IH. auto.
Qed.

Lemma length_filter_pos {X} (f : X -> bool) (l : list X) (x : X) :
  In x l -> f x = true -> 1 <= length (filter f l).
Proof.
  intros Hin Hf. assert (H : In x (filter f l)) by (apply filter_In; auto).
  destruct (filter f l); [destruct H | simpl; lia].
Qed.

Lemma length_filter_eqb_seq (i a n : nat) :
  length (filter (fun j => j =? i) (seq a n))
  = if (a <=? i) && (i <? a + n) then 1 else 0.
Proof.
  revert a; induction n as [|n IH]; intros a; simpl.
  - destruct (a <=? i) eqn:E1, (i <? a + 0) eqn:E2; try reflexivity.
    apply Nat.leb_le in E1. apply Nat.ltb_lt in E2. lia.
  - destruct (a =? i) eqn:E; simpl; rewrite IH.
    + apply Nat.eqb_eq in E. subst a.
      rewrite Nat.leb_refl.
      replace (S i <=? i) with false by (symmetry; apply Nat.leb_gt; lia).
      replace (i <? i + S n) with true by (symmetry; apply Nat.ltb_lt; lia).
      reflexivity.
    + apply Nat.eqb_neq in E.
      destruct (S a <=? i) eqn:E1, (a <=? i) eqn:E2, (i <? S a + n) eqn:E3,
        (i <? a + S n) eqn:E4; simpl; try reflexivity; exfalso;
        repeat match goal with
        | H : (_ <=? _) = true |- _ => apply Nat.leb_le in H
        | H : (_ <=? _) = false |- _ => apply Nat.leb_gt in H
        | H : (_ <? _) = true |- _ => apply Nat.ltb_lt in H
        | H : (_ <? _) = false |- _ => apply Nat.ltb_ge in H
        end; lia.
Qed.

(** A predicate that holds at index [i] only selects one index. *)
Lemma length_filter_single (f : nat -> bool) (i n : nat) :
  i < n -> (forall j, j < n -> f j = (j =? i)) ->
  length (filter f (seq 0 n)) = 1.
Proof.
  intros Hi H. rewrite (filter_ext_in f (fun j => j =? i)).
  - rewrite length_filter_eqb_seq. simpl.
    replace (i <? n) with true by (symmetry; apply Nat.ltb_lt; lia). reflexivity.
  - intros j Hj. apply in_seq in Hj. apply H. lia.
Qed.

(** What [compute_ranks] returns on two arrays of shape [(N, D)], row by
    row: the rank of row [i] is [rank_at] of the returned matrix, whose
    row [i] is complete. *)
Lemma compute_ranks_rows (m : metric) (src tgt : ndarray float) (N D : nat) :
  has_shape src N D -> has_shape tgt N D ->
  exists ranks distances,
    compute_ranks src tgt m = Ok (ranks, distances)
    /\ cdist src tgt m = Ok distances
    /\ length ranks = N
    /\ (forall i, i < N ->
          exists r c, nth_error ranks i = Some r
                      /\ item distances i i = Some c
                      /\ rank_at distances i N = Some r)
    /\ (forall i j, i < N -> j < N -> exists x, item distances i j = Some x).
Proof.
  intros Hs Ht. pose proof (has_shape_ncols _ _ _ _ _ Hs Ht) as Hc.
  destruct Hs as (Hs & _ & _), Ht as (Ht & _ & _). unfold nrows in Hs, Ht.
  exists (map (fun p => closer_count m (rows tgt) (fst p) (snd p))
              (combine (rows src) (rows tgt))).
  exists {| ncols := nrows tgt; rows := distance_rows m (rows src) (rows tgt) |}.
  split; [apply compute_ranks_rows_le; unfold nrows; [assumption | lia]|].
  split; [now apply cdist_ok|].
  split; [rewrite length_map, length_combine; lia|].
  split.
  - intros i Hi.
    destruct (nth_error_in_range (rows src) i) as [u Hu]; [lia|].
    destruct (nth_error_in_range (rows tgt) i) as [v Hv]; [lia|].
    exists (closer_count m (rows tgt) u v), (m u v). repeat split.
    + rewrite nth_error_map, (nth_error_combine_some _ _ _ _ _ Hu Hv). reflexivity.
    + now rewrite item_distance_rows, Hu, Hv.
    + rewrite <- Ht. now apply rank_at_distance_rows.
  - intros i j Hi Hj.
    destruct (nth_error_in_range (rows src) i) as [u Hu]; [lia|].
    destruct (nth_error_in_range (rows tgt) j) as [v Hv]; [lia|].
    exists (m u v). now rewrite item_distance_rows, Hu, Hv.
Qed.

(** ** Claims on [compute_ranks] *)





(** The cosine distance of the zero vector to itself is NaN, and the rank
    of its row is 0. *)
Lemma compute_ranks_zero_row :
  compute_ranks zero_row zero_row cosine = Ok ([0%Z], arr 1 [[nan]]).
Proof. vm_compute. reflexivity. Qed.

Lemma rank_at_unfold (d : ndarray float) (i n : nat) (c : float) (r : Z) :
  item d i i = Some c -> rank_at d i n = Some r ->
  r = Z.of_nat (length (filter
        (fun j => match item d i j with
                  | Some x => (x <=? c)%float
                  | None => false
                  end) (seq 0 n))).
Proof. unfold rank_at. intros -> [= <-]. reflexivity. Qed.

(** C3 (as amended): on two arrays of shape [(N, D)] every rank lies in
    [[0, N]]; the rank of row [i] is at least 1 when [distances[i][i]] is
    not NaN, and it is 0 when [distances[i][i]] is NaN. *)
Theorem ranks_within_bounds (m : metric) (src tgt : ndarray float) (N D : nat) :
  has_shape src N D -> has_shape tgt N D ->
  exists ranks distances,
    compute_ranks src tgt m = Ok (ranks, distances)
    /\ length ranks = N
    /\ (forall i, i < N ->
          exists r c, nth_error ranks i = Some r
                      /\ item distances i i = Some c
                      /\ (0 <= r <= Z.of_nat N)%Z
                      /\ (PrimFloat.is_nan c = false -> (1 <= r)%Z)
                      /\ (PrimFloat.is_nan c = true -> r = 0%Z)).
Proof.
  intros Hs Ht.
  destruct (compute_ranks_rows m src tgt N D Hs Ht) as (ranks & d & E & _ & Hl & Hr & _).
  exists ranks, d. repeat split; try assumption.
  intros i Hi. destruct (Hr i Hi) as (r & c & Hn & Hc & Hk).
  exists r, c. pose proof (rank_at_unfold d i N c r Hc Hk) as Er.
  clear Hk. subst r. repeat split; try assumption.
  - lia.
  - apply inj_le. etransitivity; [apply length_filter_le|]. now rewrite length_seq.
  - intros Hnan. change 1%Z with (Z.of_nat 1). apply inj_le.
    apply (length_filter_pos _ _ i).
    + apply in_seq. lia.
    + rewrite Hc. now apply Ieee.leb_refl.
  - intros Hnan. rewrite filter_none; [reflexivity|].
    intros j _. destruct (item d i j); [|reflexivity]. now apply Ieee.leb_nan_r.
Qed.

Lemma ranks_within_bounds_witness :
  exists ranks distances,
    compute_ranks three_rows three_rows cosine = Ok (ranks, distances)
    /\ length ranks = 3
    /\ (forall i, i < 3 ->
          exists r c, nth_error ranks i = Some r
                      /\ item distances i i = Some c
                      /\ (0 <= r <= Z.of_nat 3)%Z
                      /\ (PrimFloat.is_nan c = false -> (1 <= r)%Z)
                      /\ (PrimFloat.is_nan c = true -> r = 0%Z)).
Proof.
  apply (ranks_within_bounds cosine three_rows three_rows 3 2).
  - unfold has_shape; simpl. repeat split. repeat constructor.
  - unfold has_shape; simpl. repeat split. repeat constructor.
Defined.

(** C3 (counterexample): for the [1 x 2] zero arrays and the cosine
    metric, the only rank is 0, outside [[1, 1]]. *)
Lemma rank_zero_on_zero_vectors :
  has_shape zero_row 1 2
  /\ ~ (forall ranks distances,
          compute_ranks zero_row zero_row cosine = Ok (ranks, distances) ->
          Forall (fun r => (1 <= r <= 1)%Z) ranks).
Proof.
  split.
  - unfold has_shape; simpl. repeat split. repeat constructor.
  - intros H. specialize (H _ _ compute_ranks_zero_row).
    inversion H; subst. lia.
Qed.

(** C4 (as amended): for [src = [[1,0]]] and [tgt = [[1,0],[0,1]]],
    [compute_ranks] raises nothing: it returns the rank [[1]] and the
    [1 x 2] distance matrix [[[0, 1]]]. A column count that differs, as
    for [tgt = [[1,0,0]]], is what makes [cdist] raise. *)
Theorem mismatched_rows_result :
  compute_ranks one_row two_rows cosine = Ok ([1%Z], arr 2 [[0; 1]]%float)
  /\ compute_ranks one_row (arr 3 [[1; 0; 0]]%float) cosine
     = Raise (ValueError "XA and XB must have the same number of columns").
Proof. split; vm_compute; reflexivity. Qed.

(** C4 (counterexample): on [src = [[1,0]]], [tgt = [[1,0],[0,1]]] no
    error is raised. *)
Lemma mismatched_rows_no_error :
  ~ raises (compute_ranks one_row two_rows cosine).
Proof. intros [e H]. vm_compute in H. discriminate H. Qed.

(** C5 (as amended): on two arrays of shape [(N, D)] whose distance
    matrix has no NaN on its diagonal and, in every row, the diagonal
    entry strictly below all the others, every rank is 1. *)
Theorem strict_diagonal_ranks_one (m : metric) (src tgt : ndarray float)
    (N D : nat) (d : ndarray float) :
  has_shape src N D -> has_shape tgt N D ->
  cdist src tgt m = Ok d ->
  diagonal_not_nan d N ->
  diagonal_strictly_minimal d N ->
  compute_ranks src tgt m = Ok (repeat 1%Z N, d).
Proof.
  intros Hs Ht Hd Hnan Hmin.
  destruct (compute_ranks_rows m src tgt N D Hs Ht) as (ranks & d' & E & Hd' & Hl & Hr & Hx).
  rewrite Hd in Hd'. injection Hd' as <-.
  rewrite E. do 2 f_equal. apply list_eq_repeat; [assumption|].
  intros i Hi. destruct (Hr i Hi) as (r & c & Hn & Hc & Hk).
  rewrite Hn. f_equal. rewrite (rank_at_unfold d i N c r Hc Hk).
  change 1%Z with (Z.of_nat 1). f_equal.
  apply (length_filter_single _ i N Hi). intros j Hj.
  destruct (Nat.eqb_spec j i) as [-> | Hne].
  - rewrite Hc. apply Ieee.leb_refl. now apply (Hnan i).
  - destruct (Hx i j Hi Hj) as [x Hij]. rewrite Hij.
    apply Ieee.ltb_leb_false. now apply (Hmin i j).
Qed.

(** C5 (counterexample): the [1 x 1] distance matrix of the zero vector
    has a strictly minimal diagonal (there is no other entry), and the
    rank is 0, not 1. *)
Lemma strict_diagonal_rank_zero :
  has_shape zero_row 1 2
  /\ ~ (forall ranks distances,
          compute_ranks zero_row zero_row cosine = Ok (ranks, distances) ->
          diagonal_strictly_minimal distances 1 ->
          Forall (fun r => r = 1%Z) ranks).
Proof.
  split.
  - unfold has_shape; simpl. repeat split. repeat constructor.
  - intros H. specialize (H _ _ compute_ranks_zero_row).
    assert (Hmin : diagonal_strictly_minimal (arr 1 [[nan]]) 1).
    { intros i j c x Hi Hj Hne. lia. }
    specialize (H Hmin). inversion H; subst. discriminate.
Qed.

(** C6 (as amended): on two arrays of shape [(N, D)] whose distance
    matrix has all its entries equal and no NaN on its diagonal (hence no
    NaN at all), every rank is [N]. *)
Theorem equidistant_ranks_N (m : metric) (src tgt : ndarray float)
    (N D : nat) (d : ndarray float) :
  has_shape src N D -> has_shape tgt N D ->
  cdist src tgt m = Ok d ->
  diagonal_not_nan d N ->
  all_entries_equal d N ->
  compute_ranks src tgt m = Ok (repeat (Z.of_nat N) N, d).
Proof.
  intros Hs Ht Hd Hnan Heq.
  destruct (compute_ranks_rows m src tgt N D Hs Ht) as (ranks & d' & E & Hd' & Hl & Hr & Hx).
  rewrite Hd in Hd'. injection Hd' as <-.
  rewrite E. do 2 f_equal. apply list_eq_repeat; [assumption|].
  intros i Hi. destruct (Hr i Hi) as (r & c & Hn & Hc & Hk).
  rewrite Hn. f_equal. rewrite (rank_at_unfold d i N c r Hc Hk). f_equal.
  rewrite length_filter_all; [apply length_seq|].
  intros j Hj. apply in_seq in Hj.
  destruct (Hx i j Hi) as [x Hij]; [lia|]. rewrite Hij.
  destruct (Heq i j i i x c) as [-> | He]; auto; try lia.
  - apply Ieee.leb_refl. now apply (Hnan i).
  - now apply Ieee.eqb_leb.
Qed.

(** The cosine distances between zero vectors are all NaN, and both ranks
    are 0. *)
Lemma compute_ranks_zero_rows :
  compute_ranks zero_rows zero_rows cosine
  = Ok ([0%Z; 0%Z], arr 2 [[nan; nan]; [nan; nan]]).
Proof. vm_compute. reflexivity. Qed.

(** C6 (counterexample): the [2 x 2] distance matrix of two zero vectors
    has all its entries equal (they are all NaN), and the ranks are 0, not
    2. *)
Lemma equidistant_nan_ranks_zero :
  has_shape zero_rows 2 2
  /\ ~ (forall ranks distances,
          compute_ranks zero_rows zero_rows cosine = Ok (ranks, distances) ->
          all_entries_equal distances 2 ->
          Forall (fun r => r = 2%Z) ranks).
Proof.
  split.
  - unfold has_shape; simpl. repeat split. repeat constructor.
  - intros H. specialize (H _ _ compute_ranks_zero_rows).
    assert (Heq : all_entries_equal (arr 2 [[nan; nan]; [nan; nan]]) 2).
    { intros i j k l x y Hi Hj Hk Hl Hx Hy. left.
      destruct i as [|[|i]], j as [|[|j]], k as [|[|k]], l as [|[|l]]; try lia;
        cbv in Hx, Hy; injection Hx as <-; injection Hy as <-; reflexivity. }
    specialize (H Heq). inversion H; subst. discriminate.
Qed.

Lemma strict_diagonal_ranks_one_witness :
  compute_ranks two_rows two_rows cosine
  = Ok (repeat 1%Z 2, arr 2 [[0; 1]; [1; 0]]%float).
Proof.
  apply (strict_diagonal_ranks_one cosine two_rows two_rows 2 2).
  - unfold has_shape; simpl. repeat split. repeat constructor.
  - unfold has_shape; simpl. repeat split. repeat constructor.
  - vm_compute. reflexivity.
  - intros i c Hi H. destruct i as [|[|i]]; try lia;
      cbv in H; injection H as <-; reflexivity.
  - intros i j c x Hi Hj Hne Hc Hx.
    destruct i as [|[|i]], j as [|[|j]]; try lia;
      cbv in Hc, Hx; injection Hc as <-; injection Hx as <-; reflexivity.
Defined.

Lemma equidistant_ranks_N_witness :
  compute_ranks same_rows same_rows cosine
  = Ok (repeat (Z.of_nat 2) 2, arr 2 [[0; 0]; [0; 0]]%float).
Proof.
  apply (equidistant_ranks_N cosine same_rows same_rows 2 2).
  - unfold has_shape; simpl. repeat split. repeat constructor.
  - unfold has_shape; simpl. repeat split. repeat constructor.
  - vm_compute. reflexivity.
  - intros i c Hi H. destruct i as [|[|i]]; try lia;
      cbv in H; injection H as <-; reflexivity.
  - intros i j k l x y Hi Hj Hk Hl Hx Hy. right.
    destruct i as [|[|i]], j as [|[|j]], k as [|[|k]], l as [|[|l]]; try lia;
      cbv in Hx, Hy; injection Hx as <-; injection Hy as <-; reflexivity.
Defined.

(** *** The cosine distance of a unit vector to itself *)






Example two_rows_one_hot : rows two_rows = [one_hot 2 0; one_hot 2 1].
Proof. reflexivity. Qed.



(** ** Claims on the evaluation driver *)

(** *** Chunks *)

Lemma chunked_fuel_nil {X} (fuel n : nat) : @chunked_fuel X fuel n [] = [].
Proof. now destruct fuel. Qed.

Lemma firstn_exact_app {X} (l1 l2 : list X) (n : nat) :
  length l1 = n -> firstn n (l1 ++ l2) = l1.
Proof.
  intros <-. induction l1 as [|a l1 IH]; simpl; [reflexivity | now rewrite IH].
Qed.

Lemma skipn_exact_app {X} (l1 l2 : list X) (n : nat) :
  length l1 = n -> skipn n (l1 ++ l2) = l2.
Proof.
  intros <-. induction l1 as [|a l1 IH]; simpl; [reflexivity | apply IH].
Qed.

(** The chunks of full batches followed by a short rest are the batches,
    then the rest when there is one. *)
Lemma chunked_fuel_batches {X} (n : nat) (bs : list (list X)) (tail : list X) :
  0 < n ->
  Forall (fun b => length b = n) bs ->
  length tail < n ->
  forall fuel, length (concat bs ++ tail) <= fuel ->
  chunked_fuel fuel n (concat bs ++ tail)
  = bs ++ match tail with [] => [] | _ :: _ => [tail] end.
Proof.
  intros Hn Hbs Ht. induction Hbs as [|b bs Hb _ IH]; intros fuel Hf; simpl in *.
  - destruct tail as [|a t]; [apply chunked_fuel_nil|].
    destruct fuel as [|fuel]; [simpl in Hf; lia|]. simpl chunked_fuel.
    rewrite firstn_all2 by lia. rewrite skipn_all2 by lia.
    now rewrite chunked_fuel_nil.
  - rewrite <- app_assoc in *. rewrite length_app in Hf.
    destruct b as [|a b]; [simpl in Hb; lia|].
    destruct fuel as [|fuel]; [simpl in Hf; lia|].
    change (chunked_fuel (S fuel) n ((a :: b) ++ concat bs ++ tail))
      with (firstn n ((a :: b) ++ concat bs ++ tail)
            :: chunked_fuel fuel n (skipn n ((a :: b) ++ concat bs ++ tail))).
    rewrite (firstn_exact_app _ _ _ Hb), (skipn_exact_app _ _ _ Hb).
    rewrite IH by (simpl in Hf; lia). reflexivity.
Qed.

Lemma chunked_batches {X} (n : nat) (bs : list (list X)) (tail : list X) :
  0 < n ->
  Forall (fun b => length b = n) bs ->
  length tail < n ->
  chunked (concat bs ++ tail) n
  = bs ++ match tail with [] => [] | _ :: _ => [tail] end.
Proof.
  intros Hn Hbs Ht. unfold chunked. destruct n as [|n]; [lia|].
  now apply chunked_fuel_batches.
Qed.

Lemma concat_chunked_fuel {X} (n : nat) (fuel : nat) (l : list X) :
  length l <= fuel -> concat (chunked_fuel fuel (S n) l) = l.
Proof.
  revert l; induction fuel as [|fuel IH]; intros l Hl.
  - destruct l; [reflexivity | simpl in Hl; lia].
  - destruct l as [|a l]; [reflexivity|].
    change (chunked_fuel (S fuel) (S n) (a :: l))
      with (firstn (S n) (a :: l) :: chunked_fuel fuel (S n) (skipn (S n) (a :: l))).
    simpl concat. rewrite IH; [apply (firstn_skipn (S n) (a :: l))|].
    rewrite length_skipn. simpl in *. lia.
Qed.

(** The chunks, put back together, are the list. *)
Lemma concat_chunked {X} (n : nat) (l : list X) :
  0 < n -> concat (chunked l n) = l.
Proof.
  intros Hn. destruct n as [|n]; [lia|]. now apply concat_chunked_fuel.
Qed.

Lemma chunked_not_nil {X} (n : nat) (l : list X) :
  0 < n -> l <> [] -> chunked l n <> [].
Proof.
  intros Hn Hl. destruct n as [|n]; [lia|]. destruct l as [|a l]; [congruence|].
  discriminate.
Qed.

(** *** Concatenation *)

Lemma concatenate_rows_ok {X} (d : nat) (l : list (ndarray X)) (rs : list (list X)) :
  concatenate_rows d l = Ok rs -> rs = concat (map (@rows X) l).
Proof.
  revert rs; induction l as [|a l IH]; simpl; intros rs.
  - now intros [= <-].
  - destruct (ncols a =? d); [|discriminate].
    destruct (concatenate_rows d l) as [rs'|e]; simpl; [|discriminate].
    intros [= <-]. now rewrite (IH rs' eq_refl).
Qed.

Lemma concatenate_ok {X} (l : list (ndarray X)) (c : ndarray X) :
  concatenate l = Ok c -> rows c = concat (map (@rows X) l).
Proof.
  destruct l as [|a l]; [discriminate|]. unfold concatenate.
  destruct (concatenate_rows (ncols a) (a :: l)) as [rs|e] eqn:E; simpl; [|discriminate].
  intros [= <-]. cbn [rows]. apply (concatenate_rows_ok (ncols a) (a :: l) rs E).
Qed.

Lemma concatenate_rows_same {X} (d : nat) (l : list (ndarray X)) :
  Forall (fun a => ncols a = d) l ->
  concatenate_rows d l = Ok (concat (map (@rows X) l)).
Proof.
  induction 1 as [|a l Ha _ IH]; simpl; [reflexivity|].
  now rewrite Ha, Nat.eqb_refl, IH.
Qed.

Lemma concatenate_same {X} (d : nat) (l : list (ndarray X)) :
  l <> [] -> Forall (fun a => ncols a = d) l ->
  concatenate l = Ok {| ncols := d; rows := concat (map (@rows X) l) |}.
Proof.
  intros Hl H. destruct l as [|a l]; [congruence|]. unfold concatenate.
  pose proof (Forall_inv H) as Ha. rewrite Ha, (concatenate_rows_same d _ H).
  reflexivity.
Qed.

(** The rows of the mini-batch outputs add up to the rows of the input
    when each output has one row per input row. *)
Lemma length_concat_rows {X Y} (f : list X -> ndarray Y) (ls : list (list X)) :
  (forall xs, nrows (f xs) = length xs) ->
  length (concat (map (@rows Y) (map f ls))) = length (concat ls).
Proof.
  intros Hf. induction ls as [|l ls IH]; simpl; [reflexivity|].
  rewrite !length_app, IH. f_equal. apply Hf.
Qed.

Section DriverFacts.

Variable model : list tokens -> ndarray float.
Variable np_mean : list float -> float.
Variable py_round : float -> Z -> float.
Variable cfg : run_config.

Let n := test_batch_size cfg.

Lemma length_code_query_dataset (b : list example) :
  length (combine (map fst b) (map snd b)) = length b.
Proof. rewrite length_combine, !length_map. apply Nat.min_id. Qed.

(** Whatever the widths, the concatenated embeddings of a batch have one
    row per item when the model has one row per input row. *)
Lemma batch_representations_rows (b : list example) (c q : ndarray float) :
  (forall xs, nrows (model xs) = length xs) ->
  batch_representations model cfg b = Ok (c, q) ->
  nrows c = length b /\ nrows q = length b.
Proof.
  intros Hm. unfold batch_representations, DataLoader.
  destruct (train_batch_size cfg <=? 0)%Z eqn:Etb; [discriminate|]. cbn [bind].
  apply Z.leb_gt in Etb.
  set (mbs := chunked (combine (map fst b) (map snd b)) (Z.to_nat (train_batch_size cfg))).
  destruct (concatenate (map (fun mb => model (map fst mb)) mbs)) as [c'|e] eqn:Ec;
    [|discriminate]. cbn [bind].
  destruct (concatenate (map (fun mb => model (map snd mb)) mbs)) as [q'|e] eqn:Eq;
    [|discriminate]. cbn [bind].
  intros [= <- <-]. unfold nrows.
  rewrite (concatenate_ok _ _ Ec), (concatenate_ok _ _ Eq).
  rewrite (length_concat_rows (fun mb => model (map fst mb)))
    by (intros xs; rewrite Hm; apply length_map).
  rewrite (length_concat_rows (fun mb => model (map snd mb)))
    by (intros xs; rewrite Hm; apply length_map).
  unfold mbs. rewrite concat_chunked by lia.
  now rewrite length_code_query_dataset.
Qed.

(** With a model of one row per input row and a fixed width, the
    embeddings of a non-empty batch are computed. *)
Lemma batch_representations_ok (hidden : nat) (b : list example) :
  (0 < train_batch_size cfg)%Z ->
  (forall xs, nrows (model xs) = length xs /\ ncols (model xs) = hidden) ->
  b <> [] ->
  exists c q,
    batch_representations model cfg b = Ok (c, q)
    /\ nrows c = length b /\ nrows q = length b
    /\ ncols c = hidden /\ ncols q = hidden.
Proof.
  intros Htb Hm Hb.
  assert (E : exists c q, batch_representations model cfg b = Ok (c, q)
                          /\ ncols c = hidden /\ ncols q = hidden).
  { unfold batch_representations, DataLoader.
    replace (train_batch_size cfg <=? 0)%Z with false by (symmetry; apply Z.leb_gt; lia).
    cbn [bind].
    set (mbs := chunked (combine (map fst b) (map snd b)) (Z.to_nat (train_batch_size cfg))).
    assert (Hne : mbs <> []).
    { apply chunked_not_nil; [lia|]. intros H0.
      apply (f_equal (@length _)) in H0. rewrite length_code_query_dataset in H0.
      destruct b; [congruence | discriminate]. }
    rewrite (concatenate_same hidden (map (fun mb => model (map fst mb)) mbs)).
    - rewrite (concatenate_same hidden (map (fun mb => model (map snd mb)) mbs)).
      + cbn [bind]. eexists _, _. repeat split.
      + destruct mbs; [congruence | discriminate].
      + apply Forall_forall. intros a Ha. apply in_map_iff in Ha as [mb [<- _]]. apply Hm.
    - destruct mbs; [congruence | discriminate].
    - apply Forall_forall. intros a Ha. apply in_map_iff in Ha as [mb [<- _]]. apply Hm. }
  destruct E as (c & q & E & Hc & Hq). exists c, q.
  destruct (batch_representations_rows b c q (fun xs => proj1 (Hm xs)) E).
  repeat split; assumption.
Qed.

(** A full batch is scored: the assertion passes and the ranks are
    computed. *)
Lemma batch_mrr_ok (hidden : nat) (b : list example) :
  (0 < n)%Z -> (0 < train_batch_size cfg)%Z ->
  (forall xs, nrows (model xs) = length xs /\ ncols (model xs) = hidden) ->
  Z.of_nat (length b) = n ->
  exists s, batch_scored model np_mean cfg b s /\ batch_mrr model np_mean cfg b = Ok s.
Proof.
  intros Hn Htb Hm Hb.
  destruct (batch_representations_ok hidden b Htb Hm) as (c & q & E & Hc & Hq & Wc & Wq).
  { intros ->. simpl in Hb. lia. }
  destruct (compute_ranks_indexed cosine c q) as (ranks & d & Er & _); [congruence | lia |].
  exists (np_mean (reciprocals ranks)). split.
  - exists c, q, ranks, d. auto.
  - unfold batch_mrr. rewrite E. cbn [bind]. unfold batch_score.
    rewrite Hc, Hq, Nat.eqb_refl. fold n. rewrite Hb, Z.eqb_refl. cbn [andb py_assert bind].
    rewrite Er. reflexivity.
Qed.

(** The loop over full batches followed by at most one short chunk. *)
Lemma batch_loop_batches (bs : list (list example)) (scores : list float)
    (last : list (list example)) :
  Forall2 (fun b s => Z.of_nat (length b) = n
                      /\ batch_mrr model np_mean cfg b = Ok s) bs scores ->
  (last = [] \/ exists t, last = [t] /\ (Z.of_nat (length t) < n)%Z) ->
  forall sum_mrr num_batches,
    batch_loop model np_mean cfg (bs ++ last) sum_mrr num_batches
    = Ok (fold_left PrimFloat.add scores sum_mrr, num_batches + length bs).
Proof.
  intros H Hlast. induction H as [|b s bs scores [Hb Hs] _ IH]; intros acc k.
  - simpl. rewrite Nat.add_0_r. destruct Hlast as [-> | (t & -> & Ht)]; [reflexivity|].
    simpl. fold n. now replace (Z.of_nat (length t) <? n)%Z with true
      by (symmetry; apply Z.ltb_lt; assumption).
  - simpl. fold n. rewrite Hb, Z.ltb_irrefl, Hs. cbn [bind].
    rewrite IH. do 2 f_equal. lia.
Qed.

End DriverFacts.

(** *** Which errors the steps of a batch can raise *)

Lemma concatenate_rows_raises {X} (d : nat) (l : list (ndarray X)) (e : exn) :
  concatenate_rows d l = Raise e -> is_ValueError e.
Proof.
  induction l as [|a l IH]; simpl; [discriminate|].
  destruct (ncols a =? d); [|now intros [= <-]].
  destruct (concatenate_rows d l) as [rs|e']; simpl; [discriminate|].
  intros [= <-]. now apply IH.
Qed.

Lemma concatenate_raises {X} (l : list (ndarray X)) (e : exn) :
  concatenate l = Raise e -> is_ValueError e.
Proof.
  destruct l as [|a l]; [now intros [= <-]|]. unfold concatenate.
  destruct (concatenate_rows (ncols a) (a :: l)) as [rs|e'] eqn:E; simpl; [discriminate|].
  intros [= <-]. now apply (concatenate_rows_raises _ _ _ E).
Qed.

Lemma broadcast_dim_raises (m k : nat) (e : exn) :
  broadcast_dim m k = Raise e -> is_ValueError e.
Proof.
  unfold broadcast_dim.
  destruct (m =? k); [discriminate|]. destruct (m =? 1); [discriminate|].
  destruct (k =? 1); [discriminate|]. now intros [= <-].
Qed.

Lemma compute_ranks_raises (m : metric) (src tgt : ndarray float) (e : exn) :
  compute_ranks src tgt m = Raise e -> is_ValueError e.
Proof.
  unfold compute_ranks, cdist.
  destruct (ncols src =? ncols tgt); cbn [bind]; [|now intros [= <-]].
  unfold less_equal.
  match goal with
  | |- context [broadcast_dim ?a ?b] =>
      destruct (broadcast_dim a b) as [r|e1] eqn:E1; cbn [bind]
  end.
  - match goal with
    | |- context [broadcast_dim ?a ?b] =>
        destruct (broadcast_dim a b) as [c|e2] eqn:E2; cbn [bind]
    end; [discriminate|].
    intros [= <-]. now apply (broadcast_dim_raises _ _ _ E2).
  - intros [= <-]. now apply (broadcast_dim_raises _ _ _ E1).
Qed.

Lemma batch_representations_raises (model : list tokens -> ndarray float)
    (cfg : run_config) (b : list example) (e : exn) :
  batch_representations model cfg b = Raise e -> is_ValueError e.
Proof.
  unfold batch_representations, DataLoader.
  destruct (train_batch_size cfg <=? 0)%Z; cbn [bind]; [now intros [= <-]|].
  match goal with
  | |- context [concatenate ?l] =>
      destruct (concatenate l) as [c|e1] eqn:E1; cbn [bind]
  end.
  - match goal with
    | |- context [concatenate ?l] =>
        destruct (concatenate l) as [q|e2] eqn:E2; cbn [bind]
    end; [discriminate|].
    intros [= <-]. now apply (concatenate_raises _ _ E2).
  - intros [= <-]. now apply (concatenate_raises _ _ E1).
Qed.


(** C8: with fewer items than [test_batch_size], no batch is completed
    and the final division raises [ZeroDivisionError]; nothing is logged
    as a result. *)
Theorem test_without_full_batch_fails
    (model : list tokens -> ndarray float) (np_mean : list float -> float)
    (py_round : float -> Z -> float) (cfg : run_config) (data : list example) :
  (Z.of_nat (length data) < test_batch_size cfg)%Z ->
  test model np_mean py_round cfg data
  = Raise (ZeroDivisionError "float division by zero").
Proof.
  intros H. unfold test.
  replace (test_batch_size cfg =? 0)%Z with false by (symmetry; apply Z.eqb_neq; lia).
  replace (test_batch_size cfg <? 0)%Z with false by (symmetry; apply Z.ltb_ge; lia).
  cbn [bind].
  change data with (concat (@nil (list example)) ++ data).
  rewrite chunked_batches; [|lia|constructor|lia].
  destruct data as [|a t]; [reflexivity|].
  simpl app. cbn [batch_loop].
  now replace (Z.of_nat (length (a :: t)) <? test_batch_size cfg)%Z with true
    by (symmetry; apply Z.ltb_lt; assumption).
Qed.

(** C9: after the concatenation an assertion compares the numbers of
    code and of query embeddings with [test_batch_size]; when it does not
    hold the batch, and the loop with it, stops with [AssertionError].
    With a model that yields one embedding per input row, a batch of
    [test_batch_size] items has that many embeddings of each kind and the
    assertion does not fire. *)
Theorem assertion_on_embedding_counts
    (model : list tokens -> ndarray float) (np_mean : list float -> float)
    (cfg : run_config) (b : list example) :
  (forall xs, nrows (model xs) = length xs) ->
  Z.of_nat (length b) = test_batch_size cfg ->
  (forall c q,
     ~ (nrows c = nrows q /\ Z.of_nat (nrows q) = test_batch_size cfg) ->
     batch_score np_mean cfg (c, q) = Raise AssertionError
     /\ (forall b' rest sum_mrr num_batches,
           (test_batch_size cfg <= Z.of_nat (length b'))%Z ->
           batch_representations model cfg b' = Ok (c, q) ->
           batch_loop model np_mean cfg (b' :: rest) sum_mrr num_batches
           = Raise AssertionError))
  /\ (forall c q,
        batch_representations model cfg b = Ok (c, q) ->
        nrows c = nrows q /\ Z.of_nat (nrows q) = test_batch_size cfg)
  /\ batch_mrr model np_mean cfg b <> Raise AssertionError.
Proof.
  intros Hm Hb.
  assert (Hviol : forall c q,
             ~ (nrows c = nrows q /\ Z.of_nat (nrows q) = test_batch_size cfg) ->
             batch_score np_mean cfg (c, q) = Raise AssertionError).
  { intros c q Hv. unfold batch_score.
    destruct (nrows c =? nrows q) eqn:E1; [|reflexivity].
    destruct (Z.of_nat (nrows q) =? test_batch_size cfg)%Z eqn:E2; [|reflexivity].
    exfalso. apply Hv. split; [now apply Nat.eqb_eq | now apply Z.eqb_eq]. }
  assert (Hrows : forall c q,
             batch_representations model cfg b = Ok (c, q) ->
             nrows c = nrows q /\ Z.of_nat (nrows q) = test_batch_size cfg).
  { intros c q E. destruct (batch_representations_rows model cfg b c q Hm E) as [Hc Hq].
    split; congruence. }
  split; [|split].
  - intros c q Hv. split; [now apply Hviol|].
    intros b' rest acc k Hfull E. cbn [batch_loop].
    replace (Z.of_nat (length b') <? test_batch_size cfg)%Z with false
      by (symmetry; apply Z.ltb_ge; assumption).
    unfold batch_mrr. rewrite E. cbn [bind]. now rewrite (Hviol c q Hv).
  - exact Hrows.
  - unfold batch_mrr.
    destruct (batch_representations model cfg b) as [[c q]|e] eqn:E; cbn [bind].
    + destruct (Hrows c q eq_refl) as [H1 H2]. unfold batch_score.
      rewrite H1, Nat.eqb_refl, H2, Z.eqb_refl. cbn [andb py_assert bind].
      destruct (compute_ranks c q cosine) as [[ranks d]|e] eqn:Er; cbn [bind].
      * discriminate.
      * intros [= ->]. exact (compute_ranks_raises _ _ _ _ Er).
    + intros [= ->]. exact (batch_representations_raises _ _ _ _ E).
Qed.

(** *** A small run *)

Lemma toy_model_rows (xs : list tokens) : nrows (toy_model xs) = length xs.
Proof. unfold nrows, toy_model; simpl. apply length_map. Qed.


Lemma test_without_full_batch_fails_witness :
  test toy_model naive_mean no_round toy_cfg toy_rest
  = Raise (ZeroDivisionError "float division by zero").
Proof.
  apply (test_without_full_batch_fails toy_model naive_mean no_round toy_cfg toy_rest).
  reflexivity.
Defined.

Lemma assertion_on_embedding_counts_witness :
  (forall c q,
     ~ (nrows c = nrows q /\ Z.of_nat (nrows q) = test_batch_size toy_cfg) ->
     batch_score naive_mean toy_cfg (c, q) = Raise AssertionError
     /\ (forall b' rest sum_mrr num_batches,
           (test_batch_size toy_cfg <= Z.of_nat (length b'))%Z ->
           batch_representations toy_model toy_cfg b' = Ok (c, q) ->
           batch_loop toy_model naive_mean toy_cfg (b' :: rest) sum_mrr num_batches
           = Raise AssertionError))
  /\ (forall c q,
        batch_representations toy_model toy_cfg toy_batch = Ok (c, q) ->
        nrows c = nrows q /\ Z.of_nat (nrows q) = test_batch_size toy_cfg)
  /\ batch_mrr toy_model naive_mean toy_cfg toy_batch <> Raise AssertionError.
Proof.
  apply (assertion_on_embedding_counts toy_model naive_mean toy_cfg toy_batch).
  - apply toy_model_rows.
  - reflexivity.
Defined.

Example test_toy_run :
  test toy_model naive_mean no_round toy_cfg (toy_batch ++ toy_rest)
  = Ok [Info "Tokenizing codes and queries."; TestMRR 1%float].
Proof. vm_compute. reflexivity. Qed.

(** ** Further properties of [compute_ranks] *)


Lemma count_true_single (b : bool) :
  Z.of_nat (count_true [b]) = if b then 1%Z else 0%Z.
Proof. now destruct b. Qed.

Lemma map2_single {X Y Z'} (f : X -> Y -> Z') (a : X) (l : list X) (b : Y) :
  map2 f (a :: l) [b] = [f a b].
Proof. unfold map2. now destruct l. Qed.

Lemma compare_with_first (m : metric) (us : list vector) (t0 : vector) (c : float) :
  map (fun r => Z.of_nat (count_true r))
      (map2 (map2 PrimFloat.leb) (map (fun u => [m u t0]) us) (repeat [c] (length us)))
  = map (fun u => if (m u t0 <=? c)%float then 1%Z else 0%Z) us.
Proof.
  unfold map2 at 1. induction us as [|u us IH]; simpl; [reflexivity|].
  rewrite IH. f_equal. unfold map2; simpl. apply count_true_single.
Qed.

(** With a single target row and any number of source rows nothing is
    raised either: every source row is compared with the distance of the
    first pair, and its rank is 1 or 0. *)
Theorem compute_ranks_single_target (m : metric) (d : nat)
    (u0 : vector) (us : list vector) (t0 : vector) :
  compute_ranks {| ncols := d; rows := u0 :: us |} {| ncols := d; rows := [t0] |} m
  = Ok (map (fun u => if (m u t0 <=? m u0 t0)%float then 1%Z else 0%Z) (u0 :: us),
        {| ncols := 1; rows := map (fun u => [m u t0]) (u0 :: us) |}).
Proof.
  unfold compute_ranks, cdist. cbn [ncols rows nrows length]. rewrite Nat.eqb_refl.
  cbn [bind]. fold (distance_rows m (u0 :: us) [t0]).
  unfold diag; cbn [rows]. rewrite diag_from_distance_rows.
  unfold less_equal, expand_dims, nrows. cbn [rows ncols skipn].
  rewrite length_distance_rows.
  rewrite (map2_single m u0 us t0). cbn [map length].
  rewrite broadcast_dim_one, broadcast_dim_same. cbn [bind].
  unfold sum_last, broadcast_to. cbn [rows map stretch].
  rewrite (stretch_rows_id 1 (distance_rows m (u0 :: us) [t0]))
    by (apply (Forall_length_distance_rows m (u0 :: us) [t0])).
  rewrite (stretch_id (S (length us)) (distance_rows m (u0 :: us) [t0]))
    by (apply length_distance_rows).
  change (repeat (m u0 t0) 1) with [m u0 t0].
  change (S (length us)) with (length (u0 :: us)).
  change (distance_rows m (u0 :: us) [t0]) with (map (fun u => [m u t0]) (u0 :: us)).
  rewrite compare_with_first. reflexivity.
Qed.









Lemma combine_fst_snd {X Y} (ps : list (X * Y)) :
  combine (map fst ps) (map snd ps) = ps.
Proof.
  induction ps as [|[x y] ps IH]; simpl; [reflexivity | now rewrite IH].
Qed.

Lemma length_filter_Permutation {X} (f : X -> bool) (l l' : list X) :
  Permutation l l' -> length (filter f l) = length (filter f l').
Proof.
  induction 1 as [|x l l' _ IH|x y l|l l' l'' _ IH1 _ IH2]; simpl.
  - reflexivity.
  - destruct (f x); simpl; now rewrite IH.
  - destruct (f x), (f y); reflexivity.
  - now rewrite IH1.
Qed.

(** The ranks of a batch of pairs are those of any reordering of the
    pairs, reordered the same way: as a multiset they do not depend on
    the order of the pairs. *)
Theorem ranks_permute_with_pairs (m : metric) (d : nat)
    (ps ps' : list (vector * vector)) :
  Permutation ps ps' ->
  exists ranks dist ranks' dist',
    compute_ranks {| ncols := d; rows := map fst ps |}
                  {| ncols := d; rows := map snd ps |} m = Ok (ranks, dist)
    /\ compute_ranks {| ncols := d; rows := map fst ps' |}
                     {| ncols := d; rows := map snd ps' |} m = Ok (ranks', dist')
    /\ Permutation ranks ranks'.
Proof.
  intros Hp.
  rewrite !compute_ranks_rows_le
    by (unfold nrows; cbn [rows ncols]; rewrite ?length_map; first [reflexivity | lia]).
  cbn [rows]. rewrite !combine_fst_snd.
  eexists _, _, _, _. split; [reflexivity|]. split; [reflexivity|].
  rewrite (map_ext (fun p => closer_count m (map snd ps) (fst p) (snd p))
                   (fun p => closer_count m (map snd ps') (fst p) (snd p))).
  - now apply Permutation_map.
  - intros p. unfold closer_count. f_equal.
    apply length_filter_Permutation. now apply Permutation_map.
Qed.

Lemma ranks_permute_with_pairs_witness :
  exists ranks dist ranks' dist',
    compute_ranks {| ncols := 2; rows := map fst [([1; 0], [1; 1]); ([0; 1], [0; 1])]%float |}
                  {| ncols := 2; rows := map snd [([1; 0], [1; 1]); ([0; 1], [0; 1])]%float |}
                  cosine = Ok (ranks, dist)
    /\ compute_ranks {| ncols := 2; rows := map fst [([0; 1], [0; 1]); ([1; 0], [1; 1])]%float |}
                     {| ncols := 2; rows := map snd [([0; 1], [0; 1]); ([1; 0], [1; 1])]%float |}
                     cosine = Ok (ranks', dist')
    /\ Permutation ranks ranks'.
Proof.
  apply (ranks_permute_with_pairs cosine 2
           [([1; 0], [1; 1]); ([0; 1], [0; 1])]%float
           [([0; 1], [0; 1]); ([1; 0], [1; 1])]%float).
  apply perm_swap.
Defined.

Lemma two_selected {X} (f : X -> bool) (l : list X) (a b : X) :
  In a l -> In b l -> a <> b -> f a = true -> f b = true ->
  2 <= length (filter f l).
Proof.
  intros Ha Hb Hab Hfa Hfb.
  assert (Ia : In a (filter f l)) by (apply filter_In; auto).
  assert (Ib : In b (filter f l)) by (apply filter_In; auto).
  destruct (filter f l) as [|x [|y l']]; simpl in *; [tauto | | lia].
  destruct Ia as [<-|[]], Ib as [<-|[]]. congruence.
Qed.

(** A tie inflates the rank: when another target is at most as far from
    source [i] as its own target, and that distance is a number, the rank
    of row [i] is at least 2. *)
Theorem tie_raises_rank (m : metric) (src tgt : ndarray float) (N D i j : nat)
    (u v v' : vector) :
  has_shape src N D -> has_shape tgt N D ->
  i <> j ->
  nth_error (rows src) i = Some u ->
  nth_error (rows tgt) i = Some v ->
  nth_error (rows tgt) j = Some v' ->
  (m u v' <=? m u v)%float = true ->
  PrimFloat.is_nan (m u v) = false ->
  exists ranks d r,
    compute_ranks src tgt m = Ok (ranks, d)
    /\ nth_error ranks i = Some r /\ (2 <= r)%Z.
Proof.
  intros Hs Ht Hij Hu Hv Hv' Hle Hnan.
  pose proof (has_shape_ncols _ _ _ _ _ Hs Ht) as Hc.
  destruct Hs as (Hs & _ & _), Ht as (Ht & _ & _).
  destruct (compute_ranks_indexed m src tgt Hc) as (ranks & d & E & _ & _ & _ & Hk);
    [lia|].
  exists ranks, d, (closer_count m (rows tgt) u v).
  split; [assumption|]. split; [now apply (Hk i u v)|].
  unfold closer_count. change 2%Z with (Z.of_nat 2). apply inj_le.
  rewrite (length_filter_index (fun t => (m u t <=? m u v)%float) (rows tgt)).
  apply (two_selected _ _ i j).
  - apply in_seq. split; [lia|]. apply nth_error_Some. congruence.
  - apply in_seq. split; [lia|]. apply nth_error_Some. congruence.
  - assumption.
  - rewrite Hv. now apply Ieee.leb_refl.
  - now rewrite Hv'.
Qed.

Lemma tie_raises_rank_witness :
  exists ranks d r,
    compute_ranks same_rows same_rows cosine = Ok (ranks, d)
    /\ nth_error ranks 0 = Some r /\ (2 <= r)%Z.
Proof.
  apply (tie_raises_rank cosine same_rows same_rows 2 2 0 1
           [1; 0]%float [1; 0]%float [1; 0]%float).
  - unfold has_shape; simpl. repeat split. repeat constructor.
  - unfold has_shape; simpl. repeat split. repeat constructor.
  - lia.
  - reflexivity.
  - reflexivity.
  - reflexivity.
  - reflexivity.
  - reflexivity.
Defined.

(** ** Further properties of the evaluation driver *)

Lemma chunked_fuel_sizes {X} (n fuel : nat) (l : list X) :
  Forall (fun c => 1 <= length c <= S n) (chunked_fuel fuel (S n) l).
Proof.
  revert l; induction fuel as [|fuel IH]; intros l; [constructor|].
  destruct l as [|a l]; [constructor|].
  change (chunked_fuel (S fuel) (S n) (a :: l))
    with (firstn (S n) (a :: l) :: chunked_fuel fuel (S n) (skipn (S n) (a :: l))).
  constructor; [|apply IH].
  rewrite length_firstn. simpl length. lia.
Qed.

Lemma chunked_fuel_full {X} (n fuel : nat) (l : list X) (i : nat) (c : list X) :
  nth_error (chunked_fuel fuel (S n) l) i = Some c ->
  S i < length (chunked_fuel fuel (S n) l) ->
  length c = S n.
Proof.
  revert l i; induction fuel as [|fuel IH]; intros l i; [destruct i; discriminate|].
  destruct l as [|a l]; [destruct i; discriminate|].
  change (chunked_fuel (S fuel) (S n) (a :: l))
    with (firstn (S n) (a :: l) :: chunked_fuel fuel (S n) (skipn (S n) (a :: l))).
  destruct i as [|i]; cbn [nth_error length].
  - intros [= <-] Hlen.
    destruct (skipn (S n) (a :: l)) as [|b r] eqn:E.
    + rewrite chunked_fuel_nil in Hlen. simpl in Hlen. lia.
    + assert (Hl : S n < length (a :: l)).
      { apply (f_equal (@length X)) in E. rewrite length_skipn in E.
        simpl length in E. simpl length. lia. }
      change (length (firstn (S n) (a :: l)) = S n).
      rewrite length_firstn. lia.
  - intros Hc Hlen. apply (IH _ i Hc). lia.
Qed.

(** The chunks partition the list: put back together they are the list,
    each holds between 1 and [n] items, and each one before the last holds
    exactly [n]. *)
Theorem chunked_partitions {X} (l : list X) (n : nat) :
  0 < n ->
  concat (chunked l n) = l
  /\ Forall (fun c => 1 <= length c <= n) (chunked l n)
  /\ (forall i c, nth_error (chunked l n) i = Some c ->
                  S i < length (chunked l n) -> length c = n).
Proof.
  intros Hn. split; [now apply concat_chunked|].
  destruct n as [|n]; [lia|]. unfold chunked. split.
  - apply chunked_fuel_sizes.
  - intros i c. apply chunked_fuel_full.
Qed.

Lemma chunked_partitions_witness :
  concat (chunked [1; 2; 3; 4; 5] 2) = [1; 2; 3; 4; 5]
  /\ Forall (fun c => 1 <= length c <= 2) (chunked [1; 2; 3; 4; 5] 2)
  /\ (forall i c, nth_error (chunked [1; 2; 3; 4; 5] 2) i = Some c ->
                  S i < length (chunked [1; 2; 3; 4; 5] 2) -> length c = 2).
Proof.
  apply (chunked_partitions [1; 2; 3; 4; 5] 2). lia.
Defined.

Section LoopFacts.

Variable model : list tokens -> ndarray float.
Variable np_mean : list float -> float.
Variable py_round : float -> Z -> float.
Variable cfg : run_config.

Let n := test_batch_size cfg.

(** A short chunk at the end stops the loop without being looked at. *)
Lemma batch_loop_short_last (bs : list (list example)) (t : list example) :
  (Z.of_nat (length t) < n)%Z ->
  forall sum_mrr num_batches,
    batch_loop model np_mean cfg (bs ++ [t]) sum_mrr num_batches
    = batch_loop model np_mean cfg bs sum_mrr num_batches.
Proof.
  intros Ht. induction bs as [|b bs IH]; intros acc k; simpl.
  - fold n. now replace (Z.of_nat (length t) <? n)%Z with true
      by (symmetry; apply Z.ltb_lt; assumption).
  - destruct (Z.of_nat (length b) <? test_batch_size cfg)%Z; [reflexivity|].
    destruct (batch_mrr model np_mean cfg b); cbn [bind]; [apply IH | reflexivity].
Qed.

(** The loop stops at the first batch that raises, whatever follows. *)
Lemma batch_loop_raise (bs : list (list example)) (scores : list float)
    (b : list example) (e : exn) (rest : list (list example)) :
  Forall2 (fun b s => Z.of_nat (length b) = n
                      /\ batch_mrr model np_mean cfg b = Ok s) bs scores ->
  Z.of_nat (length b) = n ->
  batch_mrr model np_mean cfg b = Raise e ->
  forall sum_mrr num_batches,
    batch_loop model np_mean cfg (bs ++ b :: rest) sum_mrr num_batches = Raise e.
Proof.
  intros H Hb He. induction H as [|b0 s bs scores [Hb0 Hs] _ IH]; intros acc k; simpl.
  - fold n. rewrite Hb, Z.ltb_irrefl, He. reflexivity.
  - fold n. rewrite Hb0, Z.ltb_irrefl, Hs. cbn [bind]. apply IH.
Qed.

Lemma test_on_batches (bs : list (list example)) (tail : list example) :
  Forall (fun b => Z.of_nat (length b) = n) bs ->
  (Z.of_nat (length tail) < n)%Z ->
  test model np_mean py_round cfg (concat bs ++ tail)
  = ('(sum_mrr, num_batches) <-
       batch_loop model np_mean cfg
         (bs ++ match tail with [] => [] | _ :: _ => [tail] end) 0%float 0 ;;
     mrr <- (if num_batches =? 0
             then Raise (ZeroDivisionError "float division by zero")
             else Ok (sum_mrr / float_of_nat num_batches)%float) ;;
     Ok [Info "Tokenizing codes and queries."; TestMRR (py_round mrr 4%Z)]).
Proof.
  intros Hbs Ht. unfold test. fold n.
  replace (n =? 0)%Z with false by (symmetry; apply Z.eqb_neq; lia).
  replace (n <? 0)%Z with false by (symmetry; apply Z.ltb_ge; lia).
  cbn [bind]. rewrite chunked_batches; [reflexivity | lia | | lia].
  apply Forall_forall. intros b Hb. rewrite Forall_forall in Hbs.
  specialize (Hbs b Hb). lia.
Qed.

End LoopFacts.

(** The items after the last full batch have no influence: with or
    without them [test] gives the same result, or the same error. *)
Theorem test_ignores_short_rest
    (model : list tokens -> ndarray float) (np_mean : list float -> float)
    (py_round : float -> Z -> float) (cfg : run_config)
    (bs : list (list example)) (tail : list example) :
  Forall (fun b => Z.of_nat (length b) = test_batch_size cfg) bs ->
  (Z.of_nat (length tail) < test_batch_size cfg)%Z ->
  test model np_mean py_round cfg (concat bs ++ tail)
  = test model np_mean py_round cfg (concat bs).
Proof.
  intros Hbs Ht.
  rewrite (test_on_batches model np_mean py_round cfg bs tail Hbs Ht).
  rewrite <- (app_nil_r (concat bs)) at 1.
  rewrite (test_on_batches model np_mean py_round cfg bs [] Hbs) by (simpl; lia).
  destruct tail as [|a t]; [reflexivity|].
  now rewrite batch_loop_short_last, app_nil_r.
Qed.

Lemma test_ignores_short_rest_witness :
  test toy_model naive_mean no_round toy_cfg (concat [toy_batch] ++ toy_rest)
  = test toy_model naive_mean no_round toy_cfg (concat [toy_batch]).
Proof.
  apply (test_ignores_short_rest toy_model naive_mean no_round toy_cfg [toy_batch] toy_rest).
  - repeat constructor.
  - reflexivity.
Defined.

(** The first batch that raises ends the run with its error: the batches
    and the items after it are not looked at. *)
Theorem failing_batch_aborts
    (model : list tokens -> ndarray float) (np_mean : list float -> float)
    (py_round : float -> Z -> float) (cfg : run_config)
    (bs : list (list example)) (scores : list float) (b : list example) (e : exn)
    (rest : list (list example)) (tail : list example) :
  Forall2 (fun b s => Z.of_nat (length b) = test_batch_size cfg
                      /\ batch_mrr model np_mean cfg b = Ok s) bs scores ->
  Z.of_nat (length b) = test_batch_size cfg ->
  batch_mrr model np_mean cfg b = Raise e ->
  Forall (fun b => Z.of_nat (length b) = test_batch_size cfg) rest ->
  (Z.of_nat (length tail) < test_batch_size cfg)%Z ->
  test model np_mean py_round cfg (concat (bs ++ b :: rest) ++ tail) = Raise e.
Proof.
  intros H Hb He Hrest Ht.
  rewrite test_on_batches; [|apply Forall_app; split; [|constructor; assumption] | assumption].
  - rewrite <- app_assoc. cbn [app].
    now rewrite (batch_loop_raise model np_mean cfg bs scores b e _ H Hb He).
  - clear He. induction H as [|b0 s bs scores [Hb0 _] _ IH]; constructor; auto.
Qed.

Lemma failing_batch_aborts_witness :
  test toy_model naive_mean no_round bad_cfg (concat ([] ++ toy_batch :: []) ++ toy_rest)
  = Raise (ValueError "batch_size should be a positive integer value").
Proof.
  apply (failing_batch_aborts toy_model naive_mean no_round bad_cfg [] [] toy_batch
           (ValueError "batch_size should be a positive integer value") [] toy_rest).
  - constructor.
  - reflexivity.
  - reflexivity.
  - constructor.
  - reflexivity.
Defined.

Lemma split_batches_fuel {X} (n fuel : nat) (l : list X) :
  0 < n -> length l <= fuel ->
  exists bs tail,
    l = concat bs ++ tail
    /\ Forall (fun b => length b = n) bs /\ length tail < n.
Proof.
  intros Hn. revert l; induction fuel as [|fuel IH]; intros l Hl.
  - exists [], l. simpl. repeat split; [constructor | lia].
  - destruct (Nat.lt_ge_cases (length l) n) as [Hlt|Hge].
    + exists [], l. simpl. repeat split; [constructor | assumption].
    + destruct (IH (skipn n l)) as (bs & tail & E & Hbs & Ht).
      { rewrite length_skipn. lia. }
      exists (firstn n l :: bs), tail. repeat split.
      * simpl. rewrite <- app_assoc, <- E. symmetry. apply firstn_skipn.
      * constructor; [|assumption]. rewrite length_firstn. lia.
      * assumption.
Qed.

(** Every list is full batches followed by a shorter rest. *)
Lemma split_batches {X} (n : nat) (l : list X) :
  0 < n ->
  exists bs tail,
    l = concat bs ++ tail
    /\ Forall (fun b => length b = n) bs /\ length tail < n.
Proof. intros Hn. now apply (split_batches_fuel n (length l)). Qed.

Lemma batch_mrr_bad_loader (model : list tokens -> ndarray float)
    (np_mean : list float -> float) (cfg : run_config) (b : list example) :
  (train_batch_size cfg <= 0)%Z ->
  batch_mrr model np_mean cfg b
  = Raise (ValueError "batch_size should be a positive integer value").
Proof.
  intros H. unfold batch_mrr, batch_representations, DataLoader.
  now replace (train_batch_size cfg <=? 0)%Z with true by (symmetry; apply Z.leb_le; lia).
Qed.

Lemma all_batches_scored (model : list tokens -> ndarray float)
    (np_mean : list float -> float) (cfg : run_config) (hidden : nat)
    (bs : list (list example)) :
  (0 < test_batch_size cfg)%Z -> (0 < train_batch_size cfg)%Z ->
  (forall xs, nrows (model xs) = length xs /\ ncols (model xs) = hidden) ->
  Forall (fun b => Z.of_nat (length b) = test_batch_size cfg) bs ->
  exists scores,
    Forall2 (fun b s => Z.of_nat (length b) = test_batch_size cfg
                        /\ batch_mrr model np_mean cfg b = Ok s) bs scores.
Proof.
  intros Hn Htb Hm Hbs. induction Hbs as [|b bs Hb _ IH].
  - exists []. constructor.
  - destruct IH as (scores & H).
    destruct (batch_mrr_ok model np_mean cfg hidden b Hn Htb Hm Hb) as (s & _ & Hs).
    exists (s :: scores). constructor; auto.
Qed.

(** How [test] ends, for a model with one embedding of a fixed width per
    input row: it logs a result exactly when both batch sizes are positive
    and there is a full batch; it divides by zero when [test_batch_size] is
    0 or exceeds the number of items; it raises [ValueError] when
    [test_batch_size] is negative, or when there is a full batch and
    [train_batch_size] is not positive; and the assertion never fires. *)
Theorem test_outcome
    (model : list tokens -> ndarray float) (np_mean : list float -> float)
    (py_round : float -> Z -> float) (cfg : run_config) (hidden : nat)
    (data : list example) :
  (forall xs, nrows (model xs) = length xs /\ ncols (model xs) = hidden) ->
  match test model np_mean py_round cfg data with
  | Ok _ =>
      (0 < test_batch_size cfg <= Z.of_nat (length data))%Z
      /\ (0 < train_batch_size cfg)%Z
  | Raise (ZeroDivisionError _) =>
      test_batch_size cfg = 0%Z
      \/ (0 < test_batch_size cfg /\ Z.of_nat (length data) < test_batch_size cfg)%Z
  | Raise (ValueError _) =>
      (test_batch_size cfg < 0)%Z
      \/ ((0 < test_batch_size cfg <= Z.of_nat (length data))%Z
          /\ (train_batch_size cfg <= 0)%Z)
  | Raise AssertionError => False
  end.
Proof.
  intros Hm.
  destruct (Z.lt_trichotomy (test_batch_size cfg) 0) as [Hneg | [Hzero | Hpos]].
  - unfold test.
    replace (test_batch_size cfg =? 0)%Z with false by (symmetry; apply Z.eqb_neq; lia).
    replace (test_batch_size cfg <? 0)%Z with true by (symmetry; apply Z.ltb_lt; lia).
    cbn [bind]. now left.
  - unfold test. rewrite Hzero. cbn [bind Z.eqb]. now left.
  - destruct (split_batches (Z.to_nat (test_batch_size cfg)) data) as (bs & tail & E & Hbs & Ht);
      [lia|].
    assert (Hbs' : Forall (fun b => Z.of_nat (length b) = test_batch_size cfg) bs).
    { apply Forall_forall. intros b Hb. rewrite Forall_forall in Hbs.
      specialize (Hbs b Hb). lia. }
    assert (Ht' : (Z.of_nat (length tail) < test_batch_size cfg)%Z) by lia.
    assert (Hlast : match tail with [] => [] | _ :: _ => [tail] end = []
                    \/ exists t, match tail with [] => [] | _ :: _ => [tail] end = [t]
                                 /\ (Z.of_nat (length t) < test_batch_size cfg)%Z).
    { destruct tail as [|a t]; [now left|]. right. now exists (a :: t). }
    rewrite E, (test_on_batches model np_mean py_round cfg bs tail Hbs' Ht').
    destruct bs as [|b bs].
    + rewrite (batch_loop_batches model np_mean cfg [] [] _ (Forall2_nil _) Hlast).
      cbn [bind length Nat.add Nat.eqb]. right. simpl concat. simpl app. lia.
    + assert (Hlen : (test_batch_size cfg <= Z.of_nat (length (concat (b :: bs) ++ tail)))%Z).
      { pose proof (Forall_inv Hbs') as Hb. cbv beta in Hb. simpl concat.
        rewrite !length_app. lia. }
      destruct (Z.le_gt_cases (train_batch_size cfg) 0) as [Hbad | Hgood].
      * change ((b :: bs) ++ match tail with [] => [] | _ :: _ => [tail] end)
          with ([] ++ b :: (bs ++ match tail with [] => [] | _ :: _ => [tail] end)).
        rewrite (batch_loop_raise model np_mean cfg [] [] b _ _ (Forall2_nil _)
                   (Forall_inv Hbs') (batch_mrr_bad_loader model np_mean cfg b Hbad)).
        cbn [bind]. right. lia.
      * destruct (all_batches_scored model np_mean cfg hidden (b :: bs) Hpos Hgood Hm Hbs')
          as (scores & Hsc).
        rewrite (batch_loop_batches model np_mean cfg (b :: bs) scores _ Hsc Hlast).
        cbn [bind length Nat.add Nat.eqb]. lia.
Qed.

Lemma test_outcome_witness :
  match test toy_model naive_mean no_round toy_cfg (toy_batch ++ toy_rest) with
  | Ok _ =>
      (0 < test_batch_size toy_cfg <= Z.of_nat (length (toy_batch ++ toy_rest)))%Z
      /\ (0 < train_batch_size toy_cfg)%Z
  | Raise (ZeroDivisionError _) =>
      test_batch_size toy_cfg = 0%Z
      \/ (0 < test_batch_size toy_cfg
          /\ Z.of_nat (length (toy_batch ++ toy_rest)) < test_batch_size toy_cfg)%Z
  | Raise (ValueError _) =>
      (test_batch_size toy_cfg < 0)%Z
      \/ ((0 < test_batch_size toy_cfg <= Z.of_nat (length (toy_batch ++ toy_rest)))%Z
          /\ (train_batch_size toy_cfg <= 0)%Z)
  | Raise AssertionError => False
  end.
Proof.
  apply (test_outcome toy_model naive_mean no_round toy_cfg 2 (toy_batch ++ toy_rest)).
  intros xs. split; [apply toy_model_rows | reflexivity].
Defined.

(** *** Mini-batches *)

Lemma row_wise_nil (model : list tokens -> ndarray float) (hidden : nat) :
  row_wise model hidden -> rows (model []) = [].
Proof.
  intros [_ H]. specialize (H [] []). simpl in H.
  apply (f_equal (@length _)) in H. rewrite length_app in H.
  destruct (rows (model [])); [reflexivity | simpl in H; lia].
Qed.

Lemma concat_rows_row_wise {X} (model : list tokens -> ndarray float) (hidden : nat)
    (f : X -> tokens) (mbs : list (list X)) :
  row_wise model hidden ->
  concat (map (@rows float) (map (fun mb => model (map f mb)) mbs))
  = rows (model (map f (concat mbs))).
Proof.
  intros Hm. induction mbs as [|mb mbs IH]; simpl.
  - symmetry. apply (row_wise_nil model hidden Hm).
  - rewrite IH, map_app. symmetry. apply Hm.
Qed.

Lemma batch_representations_row_wise (model : list tokens -> ndarray float)
    (cfg : run_config) (hidden : nat) (b : list example) :
  row_wise model hidden -> (0 < train_batch_size cfg)%Z -> b <> [] ->
  batch_representations model cfg b
  = Ok ({| ncols := hidden; rows := rows (model (map fst b)) |},
        {| ncols := hidden; rows := rows (model (map snd b)) |}).
Proof.
  intros Hm Htb Hb. unfold batch_representations, DataLoader.
  replace (train_batch_size cfg <=? 0)%Z with false by (symmetry; apply Z.leb_gt; lia).
  cbn [bind]. rewrite combine_fst_snd.
  match goal with
  | |- context [@chunked ?X ?l ?k] => set (mbs := @chunked X l k)
  end.
  assert (Hne : mbs <> []) by (apply chunked_not_nil; [lia | assumption]).
  assert (Hcat : concat mbs = b) by (apply concat_chunked; lia).
  rewrite (concatenate_same hidden (map (fun mb => model (map fst mb)) mbs)).
  - rewrite (concatenate_same hidden (map (fun mb => model (map snd mb)) mbs)).
    + cbn [bind]. rewrite !(concat_rows_row_wise model hidden) by assumption.
      now rewrite Hcat.
    + destruct mbs; [congruence | discriminate].
    + apply Forall_forall. intros a Ha. apply in_map_iff in Ha as [mb [<- _]]. apply Hm.
  - destruct mbs; [congruence | discriminate].
  - apply Forall_forall. intros a Ha. apply in_map_iff in Ha as [mb [<- _]]. apply Hm.
Qed.

Lemma batch_loop_same_batches (model : list tokens -> ndarray float)
    (np_mean : list float -> float) (cfg cfg' : run_config) (hidden : nat) :
  row_wise model hidden ->
  test_batch_size cfg = test_batch_size cfg' ->
  (0 < test_batch_size cfg)%Z ->
  (0 < train_batch_size cfg)%Z -> (0 < train_batch_size cfg')%Z ->
  forall chunks sum_mrr num_batches,
    batch_loop model np_mean cfg chunks sum_mrr num_batches
    = batch_loop model np_mean cfg' chunks sum_mrr num_batches.
Proof.
  intros Hm Hn Hpos Htb Htb'. induction chunks as [|b chunks IH]; intros acc k; simpl;
    [reflexivity|].
  rewrite <- Hn.
  destruct (Z.of_nat (length b) <? test_batch_size cfg)%Z eqn:E; [reflexivity|].
  apply Z.ltb_ge in E.
  assert (Hb : b <> []) by (intros ->; simpl in E; lia).
  unfold batch_mrr.
  rewrite (batch_representations_row_wise model cfg hidden b Hm Htb Hb).
  rewrite (batch_representations_row_wise model cfg' hidden b Hm Htb' Hb).
  cbn [bind]. unfold batch_score. rewrite <- Hn.
  match goal with
  | |- bind ?r _ = bind ?r _ => destruct r; cbn [bind]; [apply IH | reflexivity]
  end.
Qed.

(** For an encoder that works row by row, cutting a batch into
    mini-batches is transparent: the concatenated embeddings are those of
    the whole batch, and [test] gives the same result for any two positive
    values of [train_batch_size]. *)
Theorem train_batch_size_is_transparent
    (model : list tokens -> ndarray float) (np_mean : list float -> float)
    (py_round : float -> Z -> float) (cfg cfg' : run_config) (hidden : nat) :
  row_wise model hidden ->
  test_batch_size cfg = test_batch_size cfg' ->
  (0 < train_batch_size cfg)%Z -> (0 < train_batch_size cfg')%Z ->
  (forall b, b <> [] ->
     batch_representations model cfg b
     = Ok ({| ncols := hidden; rows := rows (model (map fst b)) |},
           {| ncols := hidden; rows := rows (model (map snd b)) |}))
  /\ (forall data,
        test model np_mean py_round cfg data = test model np_mean py_round cfg' data).
Proof.
  intros Hm Hn Htb Htb'. split.
  - intros b Hb. now apply batch_representations_row_wise.
  - intros data. unfold test. rewrite <- Hn.
    destruct (test_batch_size cfg =? 0)%Z eqn:E0; cbn [bind]; [reflexivity|].
    destruct (test_batch_size cfg <? 0)%Z eqn:E1; cbn [bind]; [reflexivity|].
    apply Z.eqb_neq in E0. apply Z.ltb_ge in E1.
    rewrite (batch_loop_same_batches model np_mean cfg cfg' hidden Hm Hn) by (assumption || lia).
    reflexivity.
Qed.

Lemma toy_model_row_wise : row_wise toy_model 2.
Proof.
  split; [reflexivity|]. intros xs ys. unfold toy_model; simpl. apply map_app.
Qed.

Lemma train_batch_size_is_transparent_witness :
  (forall b, b <> [] ->
     batch_representations toy_model toy_cfg b
     = Ok ({| ncols := 2; rows := rows (toy_model (map fst b)) |},
           {| ncols := 2; rows := rows (toy_model (map snd b)) |}))
  /\ (forall data,
        test toy_model naive_mean no_round toy_cfg data
        = test toy_model naive_mean no_round toy_cfg_whole data).
Proof.
  apply (train_batch_size_is_transparent toy_model naive_mean no_round
           toy_cfg toy_cfg_whole 2).
  - apply toy_model_row_wise.
  - reflexivity.
  - reflexivity.
  - reflexivity.
Defined.

(** *** Reciprocal ranks *)

Lemma closer_count_nan (m : metric) (T : list vector) (u v : vector) :
  PrimFloat.is_nan (m u v) = true -> closer_count m T u v = 0%Z.
Proof.
  intros H. unfold closer_count. rewrite filter_none; [reflexivity|].
  intros t _. now apply Ieee.leb_nan_r.
Qed.

(** A pair whose distance is NaN has rank 0, and its reciprocal rank, as
    [test] computes it with [1.0 / ranks], is infinite. *)
Theorem nan_distance_gives_infinite_reciprocal (m : metric) (src tgt : ndarray float)
    (N D i : nat) (u v : vector) :
  has_shape src N D -> has_shape tgt N D ->
  nth_error (rows src) i = Some u ->
  nth_error (rows tgt) i = Some v ->
  PrimFloat.is_nan (m u v) = true ->
  exists ranks d,
    compute_ranks src tgt m = Ok (ranks, d)
    /\ nth_error ranks i = Some 0%Z
    /\ nth_error (reciprocals ranks) i = Some infinity.
Proof.
  intros Hs Ht Hu Hv Hnan.
  pose proof (has_shape_ncols _ _ _ _ _ Hs Ht) as Hc.
  destruct Hs as (Hs & _ & _), Ht as (Ht & _ & _).
  destruct (compute_ranks_indexed m src tgt Hc) as (ranks & d & E & _ & _ & _ & Hk);
    [lia|].
  destruct (Hk i u v Hu Hv) as [Hr _].
  rewrite (closer_count_nan m (rows tgt) u v Hnan) in Hr.
  exists ranks, d. repeat split; try assumption.
  unfold reciprocals. rewrite nth_error_map, Hr. reflexivity.
Qed.

Lemma nan_distance_gives_infinite_reciprocal_witness :
  exists ranks d,
    compute_ranks zero_row zero_row cosine = Ok (ranks, d)
    /\ nth_error ranks 0 = Some 0%Z
    /\ nth_error (reciprocals ranks) 0 = Some infinity.
Proof.
  apply (nan_distance_gives_infinite_reciprocal cosine zero_row zero_row 1 2 0
           [0; 0]%float [0; 0]%float).
  - unfold has_shape; simpl. repeat split. repeat constructor.
  - unfold has_shape; simpl. repeat split. repeat constructor.
  - reflexivity.
  - reflexivity.
  - reflexivity.
Defined.
